(** * Callable-bond pricer: a shallow embedding of the numerical core

    The development follows the Python sources of [callable_pricer]:

    - [engines/bk_tree.py]   (trinomial short-rate tree),
    - [engines/cir_pde.py]   (Crank-Nicolson PDE solver),
    - [engines/hw_lsmc.py]   (Monte-Carlo with Longstaff-Schwartz regression),
    - [pricer.py]            (the orchestrator [MasterPricer]).

    Conventions of the embedding.

    - A Python [float] is idealised as an exact rational ([Q]).  Rounding
      error is therefore outside the model; comparisons, branch decisions
      and the algebra of the formulas are kept as the code writes them.
      Equalities between computed numbers are stated with [==] ([Qeq])
      unless both sides are built by the same sequence of operations.
    - Transcendental functions, the linear-algebra and root-finding
      routines of numpy/scipy and the curve queries of QuantLib are
      interfaces ([NumLib], [QuantLib]): the code only calls them.
    - A Python exception is a value of [PyExc]; code that can raise returns
      [Result A = PyExc + A], and code that also mutates an object threads
      the object's contents through the monad [M]. *)

From Stdlib Require Import QArith Qabs ZArith List String Lia Lqa.
From stdpp Require Import gmap strings list fin_maps.
Import ListNotations.
Local Open Scope Q_scope.

(* ===================================================================== *)
(** * Python values, exceptions and effects                               *)
(* ===================================================================== *)

Module Py.

(** The exception classes the modelled code can meet.  All of them derive
    from [Exception], so an [except Exception] clause catches each one. *)
Inductive PyExc : Type :=
| ValueError
| KeyError
| IndexError
| TypeError
| LinAlgError
| RuntimeError.

Definition Result (A : Type) : Type := (PyExc + A)%type.

Definition ok {A} (a : A) : Result A := inr a.
Definition raise {A} (e : PyExc) : Result A := inl e.

Definition rbind {A B} (r : Result A) (k : A -> Result B) : Result B :=
  match r with
  | inl e => inl e
  | inr a => k a
  end.

(** [try: body except Exception: handler]. *)
Definition try_except {A} (body : Result A) (handler : Result A) : Result A :=
  match body with
  | inl _ => handler
  | inr a => inr a
  end.

(** State and exceptions: the state is the contents of the objects the
    code mutates in place, and it survives a raised exception (the object
    is still there, as far as it was updated). *)
Definition M (S A : Type) : Type := S -> S * Result A.

Definition ret {S A} (a : A) : M S A := fun s => (s, inr a).
Definition throw {S A} (e : PyExc) : M S A := fun s => (s, inl e).
Definition bind {S A B} (m : M S A) (k : A -> M S B) : M S B :=
  fun s => match m s with
           | (s', inl e) => (s', inl e)
           | (s', inr a) => k a s'
           end.
Definition lift {S A} (r : Result A) : M S A := fun s => (s, r).
Definition get {S} : M S S := fun s => (s, inr s).
Definition put {S} (s : S) : M S unit := fun _ => (s, inr tt).
Definition modify {S} (f : S -> S) : M S unit := fun s => (f s, inr tt).

(** [try: body finally: fin].  The [finally] block runs on every exit of
    [body]; when it completes normally the outcome of [body] (value or
    exception) stands, and an exception of its own replaces it. *)
Definition try_finally {S A} (body : M S A) (fin : M S unit) : M S A :=
  fun s => match body s with
           | (s1, r) =>
               match fin s1 with
               | (s2, inl e) => (s2, inl e)
               | (s2, inr _) => (s2, r)
               end
           end.

(** ** Numbers *)

Definition Qltb (x y : Q) : bool := (Qnum x * QDen y <? Qnum y * QDen x)%Z.
Definition Qleb (x y : Q) : bool := Qle_bool x y.

(** [min(x, y)] and [np.minimum(x, y)] on numbers. *)
Definition Qmin (x y : Q) : Q := if Qltb y x then y else x.

(** [int(x)] on a float: truncation towards zero. *)
Definition py_int (x : Q) : Z := Z.quot (Qnum x) (Zpos (Qden x)).

(** [round(x)] and [np.round(x)]: to the nearest integer, ties to the even
    one.  [x = n/d] lies between [f = floor x] and [f + 1]; the remainder
    [n mod d] compared with [d/2] decides. *)
Definition py_round (x : Q) : Z :=
  let n := Qnum x in
  let d := Zpos (Qden x) in
  let f := (n / d)%Z in
  let r := (n mod d)%Z in
  match (2 * r ?= d)%Z with
  | Lt => f
  | Gt => (f + 1)%Z
  | Eq => if Z.even f then f else (f + 1)%Z
  end.

(** [np.linspace(start, stop, num)]: [start + i * step] with
    [step = (stop - start) / (num - 1)]; one point is [start] alone. *)
Definition linspace (start stop : Q) (num : nat) : list Q :=
  match num with
  | O => []
  | S O => [start]
  | S m => map (fun i : nat => inject_Z (Z.of_nat i) * ((stop - start) / inject_Z (Z.of_nat m)) + start)
               (seq 0 num)
  end.

(** [a[i]] on a sequence: [IndexError] out of range. *)
Definition index {A} (l : list A) (i : nat) : Result A :=
  match l !! i with
  | Some a => inr a
  | None => inl IndexError
  end.

Definition qsum (l : list Q) : Q := fold_left Qplus l 0.

(** [1e-8], [1e-12], [1e-16], [1e-5] as the code writes them. *)
Definition e_8 : Q := 1 # 100000000.
Definition e_12 : Q := 1 # 1000000000000.
Definition e_16 : Q := 1 # 10000000000000000.
Definition e_5 : Q := 1 # 100000.

End Py.
Export Py.

Declare Scope py_scope.
Delimit Scope py_scope with py.
Notation "'let*' x ':=' m 'in' k" := (bind m (fun x => k))
  (at level 10, x name, m at level 100, k at level 200) : py_scope.
Notation "'let*' ' pat ':=' m 'in' k" := (bind m (fun x => match x with pat => k end))
  (at level 10, pat pattern, m at level 100, k at level 200) : py_scope.
Notation "'run' m 'in' k" := (bind m (fun _ => k))
  (at level 10, m at level 100, k at level 200) : py_scope.

(* ===================================================================== *)
(** * External collaborators: numpy/scipy and QuantLib                    *)
(* ===================================================================== *)

(** A tri-diagonal matrix as [scipy.sparse.diags([sub, main, sup], [-1, 0, 1])]
    stores it: row [i] holds [sub[i-1]] in column [i-1], [main[i]] in
    column [i] and [sup[i]] in column [i+1]. *)
Record Tridiag : Type := mkTridiag {
  sub_diag : list Q;
  main_diag : list Q;
  sup_diag : list Q
}.

(** The numerical routines the engines call. *)
Class NumLib : Type := {
  np_exp : Q -> Q;
  np_sqrt : Q -> Q;
  np_log : Q -> Q;
  (** [np.linalg.lstsq(basis, V, rcond=None)[0]] *)
  lstsq : list (list Q) -> list Q -> Result (list Q);
  (** [np.random.RandomState(seed).normal(0.0, 1.0, (paths, N))], by rows *)
  normal_matrix : Z -> nat -> nat -> list (list Q);
  (** [optimize.brentq(obj, lo, hi, xtol=1e-12)] *)
  brentq : (Q -> Q) -> Q -> Q -> Result Q;
  (** [splu(M_L)] and [solver.solve(rhs)] *)
  splu_solve : Tridiag -> Result (list Q -> list Q);
  (** [np.interp(x, xp, fp)] *)
  np_interp : Q -> list Q -> list Q -> Q
}.


(** A term structure object.  [DiscountCurve] is the curve the market
    loader builds; [ZeroSpreadedTermStructure] adds a constant spread to
    the zero rates of another one. *)
Inductive TermStructure : Type :=
| DiscountCurve (id : nat)
| ZeroSpreadedTermStructure (underlying : TermStructure) (spread : Q).

(** The curve queries the engines make. *)
Class QuantLib : Type := {
  (** [ts.discount(t)] *)
  discount : TermStructure -> Q -> Q;
  (** [ts.zeroRate(t, ql.Continuous).rate()] *)
  zeroRate : TermStructure -> Q -> Q;
  (** [ts.forwardRate(t1, t2, ql.Continuous, ql.NoFrequency).rate()] *)
  forwardRate : TermStructure -> Q -> Q -> Q
}.

(** [params]: a dict of floats, or [None]. *)
Definition Params : Type := option (gmap string Q).

(** [float(params[key])]: [TypeError] on [None], [KeyError] on a missing key. *)
Definition param (p : Params) (key : string) : Result Q :=
  match p with
  | None => inl TypeError
  | Some d => match d !! key with
              | Some v => inr v
              | None => inl KeyError
              end
  end.

(** [AppConfig].  [risk_bump_bps] and [pde_shift_theta_with_curve] are
    read with [getattr(cfg, name, default)], so they may be absent. *)
Record AppConfig : Type := mkAppConfig {
  bump_bps : Q;
  risk_bump_bps : option Q;
  mc_paths : nat;
  mc_steps_year : Z;
  mc_seed : Z;
  pde_r_min : Q;
  pde_r_max : Q;
  pde_grid_size : nat;
  pde_steps_year : Z;
  pde_shift_theta_with_curve : option bool;
  bk_steps_year : Q;
  ql_grid_size : Z
}.

(** The bond as the engines see it, with the QuantLib date arithmetic
    already carried out: every schedule date comes with the tests the
    code makes on it ([d > today], [d == mat]) and its year fraction
    [time_dc.yearFraction(today, d)]. *)
Record SchedDate : Type := mkSchedDate {
  sd_after_today : bool;       (* d > today *)
  sd_is_maturity : bool;       (* d == mat *)
  sd_before_maturity : bool;   (* d < mat *)
  sd_yf : Q                    (* time_dc.yearFraction(today, d) *)
}.

Record CallDate : Type := mkCallDate {
  cd_after_today : bool;   (* not (qd <= today) *)
  cd_yf : Q;               (* time_dc.yearFraction(today, qd) *)
  cd_price : Q;
  cd_label : string        (* str(qd) *)
}.

Record BondData : Type := mkBondData {
  face : Q;
  coupon_rate : Q;
  payments_per_year : Q;   (* DateUtils.payments_per_year(coupon_frequency) *)
  T_maturity : Q;          (* time_dc.yearFraction(today, mat) *)
  schedule : list SchedDate;
  call_schedule : list CallDate
}.

(* ===================================================================== *)
(** * Engine C: the trinomial tree ([engines/bk_tree.py])                 *)
(* ===================================================================== *)

Module BkTree.

(** [state_cache] of the tree engine: the geometry
    [{'dt': dt, 'dx': dx, 'N': N, 'j_max': j_max}].  Array sizes are
    natural numbers: a negative [N] or [j_max], on which [np.zeros]
    raises, is outside the model. *)
Record TreeCache : Type := mkTreeCache {
  tc_dt : Q;
  tc_dx : Q;
  tc_N : nat;
  tc_j_max : nat
}.

(** One level of the tree: the arrays [(k, pu, pm, pd)], one entry per
    node. *)
Definition Level : Type := (list Z * list Q * list Q * list Q)%type.

Section Engine.
Context {NL : NumLib} {QL : QuantLib}.
Variable cfg : AppConfig.

(** Lines 40-50: the geometry is computed on the base call and read from
    the cache otherwise. *)
Definition geometry (a sigma T : Q) (state_cache : option TreeCache) : TreeCache :=
  match state_cache with
  | Some c => c
  | None =>
      let dt := 1 / bk_steps_year cfg in
      let dx := sigma * np_sqrt (3 * dt) in
      let N := (py_int (T / dt) + 2)%Z in
      let j_max := if Qltb e_12 a
                   then Z.min (py_int (6 / (a * dt)) + 1) 150
                   else 150%Z in
      mkTreeCache dt dx (Z.to_nat N) (Z.to_nat j_max)
  end.

(** [js = np.arange(-j_max, j_max + 1)] *)
Definition arange_js (j_max : nat) : list Z :=
  map (fun i : nat => (Z.of_nat i - Z.of_nat j_max)%Z) (seq 0 (2 * j_max + 1)).

(** Lines 62-66, for one node of displacement [j]:
    [mu = -a * js * dx], [k = np.round(mu * dt / dx).astype(int)] and the
    three probabilities. *)
Definition mu_of (a dx : Q) (j : Z) : Q := - a * inject_Z j * dx.

Definition branch_k (a dt dx : Q) (j : Z) : Z := py_round (mu_of a dx j * dt / dx).

Definition branch_pu (a dt dx : Q) (j : Z) : Q :=
  let e := mu_of a dx j * dt / dx - inject_Z (branch_k a dt dx j) in
  1 / 6 + (1 # 2) * (e ^ 2 + e).

Definition branch_pd (a dt dx : Q) (j : Z) : Q :=
  let e := mu_of a dx j * dt / dx - inject_Z (branch_k a dt dx j) in
  1 / 6 + (1 # 2) * (e ^ 2 - e).

Definition branch_pm (a dt dx : Q) (j : Z) : Q :=
  1 - branch_pu a dt dx j - branch_pd a dt dx j.

Definition branching (a dt dx : Q) (j_max : nat) : Level :=
  let js := arange_js j_max in
  (map (branch_k a dt dx) js,
   map (branch_pu a dt dx) js,
   map (branch_pm a dt dx) js,
   map (branch_pd a dt dx) js).

(** Lines 60-67: [tree], one level per [i in range(N - 1)]. *)
Definition build_tree (a dt dx : Q) (j_max N : nat) : list Level :=
  map (fun _ => branching a dt dx j_max) (seq 0 (N - 1)).

(** Line 58: [zc = [discount((i + 1) * dt) for i in range(N)]] *)
Definition zero_coupons (ts_obj : TermStructure) (dt : Q) (N : nat) : list Q :=
  map (fun i : nat => discount ts_obj (inject_Z (Z.of_nat i + 1) * dt)) (seq 0 N).

(** Line 70: [mask = Q > 1e-16] *)
Definition mask_of (Qv : list Q) : list bool := map (fun q => Qltb e_16 q) Qv.

(** Lines 74-75: the objective of the root search at one step,
    [np.sum(Q[mask] * np.exp(-np.exp(val + js[mask] * dx) * dt)) - zc[i]]. *)
Definition obj (dt dx : Q) (js : list Z) (Qv : list Q) (zc_i : Q) (val : Q) : Q :=
  qsum (map (fun '(q, j) => q * np_exp (- np_exp (val + inject_Z j * dx) * dt))
            (filter (fun '(q, _) => Qltb e_16 q = true) (zip Qv js)))
  - zc_i.

(** Lines 77-80: the root search with its fallback.  [alpha] is the array
    as it stands when step [i] starts. *)
Definition solve_alpha (dt dx : Q) (js : list Z) (Qv : list Q) (zc_i : Q)
    (alpha : list Q) (i : nat) : Q :=
  match brentq (obj dt dx js Qv zc_i) (-12) 12 with
  | inr root => root
  | inl _ => if (0 <? i)%nat then nth (i - 1) alpha 0 else np_log (5 # 100)
  end.

(** [Q_n[pos] += v], guarded by [0 <= pos < len(Q)]. *)
Definition add_at (Q_n : list Q) (pos : Z) (v : Q) : list Q :=
  if ((0 <=? pos)%Z && (pos <? Z.of_nat (length Q_n))%Z)%bool
  then <[Z.to_nat pos := nth (Z.to_nat pos) Q_n 0 + v]> Q_n
  else Q_n.

(** Lines 86-94: one node's contribution to the next state prices. *)
Definition propagate_node (lvl : Level) (w : list Q) (Q_n : list Q) (j : nat) : list Q :=
  let '(k, pu, pm, pd) := lvl in
  let kk := nth j k 0%Z in
  let Q1 := add_at Q_n (Z.of_nat j + kk) (nth j w 0 * nth j pm 0) in
  let Q2 := add_at Q1 (Z.of_nat j + kk + 1) (nth j w 0 * nth j pu 0) in
  add_at Q2 (Z.of_nat j + kk - 1) (nth j w 0 * nth j pd 0).

(** Lines 82-95: the state prices of the next step, once [alpha[i]] is
    set. *)
Definition propagate (dt dx : Q) (js : list Z) (lvl : Level) (alpha_i : Q) (Qv : list Q)
  : list Q :=
  let mask := mask_of Qv in
  let w := map (fun '(q, j) => q * np_exp (- np_exp (alpha_i + inject_Z j * dx) * dt))
               (zip Qv js) in
  let idx := filter (fun j : nat => nth j mask false = true) (seq 0 (length Qv)) in
  fold_left (propagate_node lvl w) idx (map (fun _ => 0) Qv).

(** Lines 69-95: one pass of the calibration loop.  [None] is the
    [break] on an empty mask. *)
Definition calibration_step (dt dx : Q) (js : list Z) (zc : list Q) (tree : list Level)
    (i : nat) (st : list Q * list Q) : option (list Q * list Q) :=
  let '(alpha, Qv) := st in
  if negb (existsb (fun b => b) (mask_of Qv)) then None
  else
    let alpha_i := solve_alpha dt dx js Qv (nth i zc 0) alpha i in
    Some (<[i := alpha_i]> alpha,
          propagate dt dx js (nth i tree ([], [], [], [])) alpha_i Qv).

Fixpoint calibration_loop (dt dx : Q) (js : list Z) (zc : list Q) (tree : list Level)
    (steps : list nat) (st : list Q * list Q) : list Q * list Q :=
  match steps with
  | [] => st
  | i :: rest =>
      match calibration_step dt dx js zc tree i st with
      | None => st
      | Some st' => calibration_loop dt dx js zc tree rest st'
      end
  end.

(** Lines 52-95: the forward calibration; the result is [(alpha, Q)]. *)
Definition calibrate (ts_obj : TermStructure) (a : Q) (geo : TreeCache) : list Q * list Q :=
  let dt := tc_dt geo in
  let dx := tc_dx geo in
  let N := tc_N geo in
  let j_max := tc_j_max geo in
  let Q0 := <[j_max := 1]> (map (fun _ => 0) (seq 0 (2 * j_max + 1))) in
  let alpha0 := map (fun _ => 0) (seq 0 N) in
  let js := arange_js j_max in
  let zc := zero_coupons ts_obj dt N in
  let tree := build_tree a dt dx j_max N in
  calibration_loop dt dx js zc tree (seq 0 (N - 1)) (alpha0, Q0).

(** Lines 118-123: coupons keyed by the nearest tree step. *)
Definition coupon_map (bond : BondData) (dt : Q) : gmap Z Q :=
  let coupon_amt := face bond * coupon_rate bond / payments_per_year bond in
  fold_left
    (fun (cfs : gmap Z Q) (d : SchedDate) =>
       if sd_after_today d then
         let idx := py_round (sd_yf d / dt) in
         let amt := coupon_amt + (if sd_is_maturity d then face bond else 0) in
         <[idx := default 0 (cfs !! idx) + amt]> cfs
       else cfs)
    (schedule bond) ∅.

(** Lines 125-131: call prices keyed by the nearest tree step. *)
Definition call_map (bond : BondData) (dt : Q) : gmap Z Q :=
  fold_left
    (fun (calls : gmap Z Q) (c : CallDate) =>
       if cd_after_today c then <[py_round (cd_yf c / dt) := cd_price c]> calls
       else calls)
    (call_schedule bond) ∅.

(** Lines 145-157: the value of node [j] at step [i], from the values [V]
    of the next step. *)
Definition node_value (dt dx : Q) (j_max : nat) (cfs calls : gmap Z Q) (alpha : list Q)
    (lvl : Level) (i : nat) (V : list Q) (j : nat) : Q :=
  let '(k, pu, pm, pd) := lvl in
  let kk := nth j k 0%Z in
  let t := (Z.of_nat j + kk)%Z in
  if ((0 <? t)%Z && (t <? 2 * Z.of_nat j_max)%Z)%bool then
    let ev := nth j pu 0 * nth (Z.to_nat (t + 1)) V 0
              + nth j pm 0 * nth (Z.to_nat t) V 0
              + nth j pd 0 * nth (Z.to_nat (t - 1)) V 0 in
    let disc := np_exp (- np_exp (nth i alpha 0
                                  + inject_Z (Z.of_nat j - Z.of_nat j_max) * dx) * dt) in
    let val := ev * disc in
    let val := match cfs !! Z.of_nat i with Some c => val + c | None => val end in
    match calls !! Z.of_nat i with
    | Some cp => Qmin val (cp + default 0 (cfs !! Z.of_nat i))
    | None => val
    end
  else 0.

(** Lines 140-159: one backward step; the border nodes [0] and [2*j_max]
    keep the zero of [np.zeros_like]. *)
Definition backward_level (dt dx : Q) (j_max : nat) (cfs calls : gmap Z Q) (alpha : list Q)
    (lvl : Level) (i : nat) (V : list Q) : list Q :=
  map (fun j : nat =>
         if ((1 <=? j)%nat && (j <? 2 * j_max)%nat)%bool
         then node_value dt dx j_max cfs calls alpha lvl i V j
         else 0)
      (seq 0 (2 * j_max + 1)).

(** Lines 28-161: [BKManualTreeEngine.price]. *)
Definition price (ts_obj : TermStructure) (bond : BondData) (params : Params)
    (state_cache : option TreeCache) : Result (Q * TreeCache) :=
  rbind (param params "a") (fun a =>
  rbind (param params "sigma") (fun sigma =>
    let geo := geometry a sigma (T_maturity bond) state_cache in
    let dt := tc_dt geo in
    let dx := tc_dx geo in
    let N := tc_N geo in
    let j_max := tc_j_max geo in
    let tree := build_tree a dt dx j_max N in
    let '(alpha, _) := calibrate ts_obj a geo in
    let cfs := coupon_map bond dt in
    let calls := call_map bond dt in
    let V0 := map (fun _ => default 0 (cfs !! (Z.of_nat N - 1)%Z)) (seq 0 (2 * j_max + 1)) in
    let V := fold_left
               (fun V i => backward_level dt dx j_max cfs calls alpha
                             (nth i tree ([], [], [], [])) i V)
               (rev (seq 0 (length tree))) V0 in
    ok (nth j_max V 0, geo))).

End Engine.
End BkTree.

(* ===================================================================== *)
(** * Engine B: the Crank-Nicolson PDE solver ([engines/cir_pde.py])      *)
(* ===================================================================== *)

Module CirPde.

(** [state_cache] of the PDE engine: the dict [{'r0_base': r0}].  The
    engine reads it with [state_cache.get('r0_base', r0)], so a dict
    without the key is a legal cache: [None] here. *)
Record PdeCache : Type := mkPdeCache {
  r0_base : option Q
}.

(** The six coefficient arrays before the boundary correction. *)
Record Coefficients : Type := mkCoefficients {
  cA : list Q;
  cB : list Q;
  cC : list Q;
  cR_sub : list Q;
  cR_main : list Q;
  cR_sup : list Q
}.

Section Engine.
Context {NL : NumLib} {QL : QuantLib}.
Variable cfg : AppConfig.

(** Lines 46-47: the cache is created on the base call. *)
Definition init_cache (r0 : Q) (state_cache : option PdeCache) : PdeCache :=
  match state_cache with
  | None => mkPdeCache (Some r0)
  | Some c => c
  end.

(** Lines 48-53: [theta], shifted with the curve when the configuration
    asks for it ([getattr(cfg, 'pde_shift_theta_with_curve', True)]). *)
Definition effective_theta (theta_base r0 : Q) (cache : PdeCache) : Q :=
  if default true (pde_shift_theta_with_curve cfg) then
    let r0_base := default r0 (r0_base cache) in
    let spread_shock := r0 - r0_base in
    theta_base + spread_shock
  else theta_base.

(** Lines 64-67: the number of time steps. *)
Definition time_steps (T : Q) : Z :=
  let Nt := py_int (T * inject_Z (pde_steps_year cfg)) in
  if (Nt <=? 2)%Z then 3%Z else Nt.

(** Lines 69-80: drift, diffusion and the Crank-Nicolson coefficients,
    node by node. *)
Definition coefficients (k theta sigma dt dr : Q) (r : list Q) : Coefficients :=
  let drift := fun ri => k * (theta - ri) in
  let diff := fun ri => (1 # 2) * sigma ^ 2 * ri in
  mkCoefficients
    (map (fun ri => - (1 # 4) * dt * (diff ri / dr ^ 2 - drift ri / (2 * dr))) r)
    (map (fun ri => 1 + (1 # 2) * dt * (ri + diff ri / dr ^ 2)) r)
    (map (fun ri => - (1 # 4) * dt * (diff ri / dr ^ 2 + drift ri / (2 * dr))) r)
    (map (fun ri => (1 # 4) * dt * (diff ri / dr ^ 2 - drift ri / (2 * dr))) r)
    (map (fun ri => 1 - (1 # 2) * dt * (ri + diff ri / dr ^ 2)) r)
    (map (fun ri => (1 # 4) * dt * (diff ri / dr ^ 2 + drift ri / (2 * dr))) r).

(** Lines 83-85: the correction at [r_min], in place on [A], [B], [C]:
    [B[0] += 2.0 * A[0]], [C[0] -= A[0]], [A[0] = 0.0]. *)
Definition boundary_correction (c : Coefficients) : Coefficients :=
  let A := cA c in
  let B := <[0%nat := nth 0 (cB c) 0 + 2 * nth 0 A 0]> (cB c) in
  let C := <[0%nat := nth 0 (cC c) 0 - nth 0 A 0]> (cC c) in
  let A := <[0%nat := 0]> A in
  mkCoefficients A B C (cR_sub c) (cR_main c) (cR_sup c).

(** Lines 87-88: [sparse.diags([A[1:], B, C[:-1]], [-1, 0, 1])] and the
    same for the right-hand side. *)
Definition M_L (c : Coefficients) : Tridiag :=
  mkTridiag (tail (cA c)) (cB c) (removelast (cC c)).

Definition M_R (c : Coefficients) : Tridiag :=
  mkTridiag (tail (cR_sub c)) (cR_main c) (removelast (cR_sup c)).

(** The operators of one price call. *)
Definition operators (k theta sigma dt dr : Q) (r : list Q) : Tridiag * Tridiag :=
  let c := boundary_correction (coefficients k theta sigma dt dr r) in
  (M_L c, M_R c).

(** [M @ V] for a tri-diagonal [M]. *)
Definition tridiag_matvec (m : Tridiag) (V : list Q) : list Q :=
  map (fun i : nat =>
         (match i with
          | O => 0
          | S i' => nth i' (sub_diag m) 0 * nth i' V 0
          end)
         + nth i (main_diag m) 0 * nth i V 0
         + (if (S i <? length V)%nat then nth i (sup_diag m) 0 * nth (S i) V 0 else 0))
      (seq 0 (length V)).

(** Lines 116-119: the coupons strictly before maturity. *)
Definition coupons (bond : BondData) : list (Q * Q) :=
  let coupon_amt := face bond * coupon_rate bond / payments_per_year bond in
  flat_map (fun d => if (sd_after_today d && sd_before_maturity d)%bool
                     then [(sd_yf d, coupon_amt)] else [])
           (schedule bond).

(** Lines 122-127: the call events. *)
Definition call_events (bond : BondData) : list (Q * Q) :=
  flat_map (fun c => if cd_after_today c then [(cd_yf c, cd_price c)] else [])
           (call_schedule bond).

(** Lines 148-152: the coupon taken as paid on the call date. *)
Fixpoint coupon_at (cfs : list (Q * Q)) (ct dt : Q) : Q :=
  match cfs with
  | [] => 0
  | (cft, amt) :: rest =>
      if Qltb (Qabs (cft - ct)) (dt * 2) then amt else coupon_at rest ct dt
  end.

(** Lines 139-153: the jumps and the obstacle after one solve. *)
Definition apply_events (cfs calls : list (Q * Q)) (dt curr_t prev_t : Q) (V : list Q) : list Q :=
  let V1 := fold_left
              (fun V '(ct, amt) =>
                 if (Qleb curr_t ct && Qltb ct prev_t)%bool
                 then map (fun v => v + amt) V else V)
              cfs V in
  fold_left
    (fun V '(ct, call_price) =>
       if (Qleb curr_t ct && Qltb ct prev_t)%bool
       then map (fun v => Qmin v (call_price + coupon_at cfs ct dt)) V else V)
    calls V1.

(** Lines 132-153: the backward march, [Nt] steps from [curr_t = T]. *)
Fixpoint march (solve : list Q -> list Q) (m_r : Tridiag) (cfs calls : list (Q * Q))
    (dt : Q) (steps : nat) (curr_t : Q) (V : list Q) : list Q :=
  match steps with
  | O => V
  | S n =>
      let prev_t := curr_t in
      let curr_t := curr_t - dt in
      let V := solve (tridiag_matvec m_r V) in
      march solve m_r cfs calls dt n curr_t (apply_events cfs calls dt curr_t prev_t V)
  end.

(** Lines 35-156: [CIRPDEEngine.price]. *)
Definition price (ts_obj : TermStructure) (bond : BondData) (params : Params)
    (state_cache : option PdeCache) : Result (Q * PdeCache) :=
  rbind (param params "theta") (fun theta_base =>
  rbind (param params "k") (fun k =>
  rbind (param params "sigma") (fun sigma =>
    let r0 := zeroRate ts_obj (1 # 1000) in
    let cache := init_cache r0 state_cache in
    let theta := effective_theta theta_base r0 cache in
    let r := linspace (pde_r_min cfg) (pde_r_max cfg) (pde_grid_size cfg) in
    rbind (index r 1) (fun r1 =>
    rbind (index r 0) (fun r_0 =>
      let dr := r1 - r_0 in
      let T := T_maturity bond in
      let Nt := time_steps T in
      let dt := T / inject_Z Nt in
      let '(m_l, m_r) := operators k theta sigma dt dr r in
      rbind (splu_solve m_l) (fun solve =>
        let coupon_amt := face bond * coupon_rate bond / payments_per_year bond in
        let V0 := map (fun _ => face bond + coupon_amt) r in
        let V := march solve m_r (coupons bond) (call_events bond) dt (Z.to_nat Nt) T V0 in
        ok (np_interp r0 r V, cache))))))).

End Engine.
End CirPde.

(* ===================================================================== *)
(** * Engine A: Monte-Carlo with regression ([engines/hw_lsmc.py])        *)
(* ===================================================================== *)

Module HwLsmc.

(** [state_cache] of the Monte-Carlo engine:
    [{'rng': rng, 'regressions': {}, 'exercise_prob': {}}].  [rng] is the
    matrix of normal draws, one row per path (all rows of one length);
    [regressions] maps a step index to its coefficient vector;
    [exercise_prob] maps [str(call date)] to an exercise frequency. *)
Record McCache : Type := mkMcCache {
  rng : list (list Q);
  regressions : gmap nat (list Q);
  exercise_prob : gmap string Q
}.

Definition set_regression (i : nat) (betas : list Q) (c : McCache) : McCache :=
  mkMcCache (rng c) (<[i := betas]> (regressions c)) (exercise_prob c).

Definition set_exercise_prob (key : string) (p : Q) (c : McCache) : McCache :=
  mkMcCache (rng c) (regressions c) (<[key := p]> (exercise_prob c)).

(** [np.zeros(3)] *)
Definition zeros3 : list Q := [0; 0; 0].

(** What the loop needs of the call schedule, keyed by step:
    [call_step_to_price] and [call_step_to_date]. *)
Record CallMaps : Type := mkCallMaps {
  call_step_to_price : gmap nat Q;
  call_step_to_date : gmap nat string
}.

Section Engine.
Context {NL : NumLib} {QL : QuantLib}.
Variable cfg : AppConfig.

(** Lines 55-58: the number of steps. *)
Definition n_steps (T : Q) : nat :=
  let N := py_int (T * inject_Z (mc_steps_year cfg)) in
  Z.to_nat (if (N <=? 1)%Z then 2%Z else N).

(** Lines 63-69: the cache of a base call. *)
Definition fresh_cache (N : nat) : McCache :=
  mkMcCache (normal_matrix (mc_seed cfg) (mc_paths cfg) N) ∅ ∅.

(** Lines 77-84: one path of the state variable, [N + 1] values from
    [X = 0].  [rng[:, i]] raises [IndexError] when the matrix has fewer
    than [N] columns. *)
Fixpoint simulate_from (a sigma dt : Q) (z : list Q) (i steps : nat) (x : Q) : Result (list Q) :=
  match steps with
  | O => ok [x]
  | S n =>
      rbind (index z i) (fun zi =>
        let x' := if Qltb (Qabs a) e_12
                  then x + sigma * np_sqrt dt * zi
                  else x * (1 - a * dt) + sigma * np_sqrt dt * zi in
        rbind (simulate_from a sigma dt z (S i) n x') (fun rest => ok (x :: rest)))
  end.

Definition simulate_path (a sigma dt : Q) (N : nat) (z : list Q) : Result (list Q) :=
  simulate_from a sigma dt z 0 N 0.

Fixpoint map_result {A B} (f : A -> Result B) (l : list A) : Result (list B) :=
  match l with
  | [] => ok []
  | x :: rest => rbind (f x) (fun y => rbind (map_result f rest) (fun ys => ok (y :: ys)))
  end.

(** Lines 89-99: the shift [alpha(t)] on the time grid. *)
Definition alpha_at (ts_obj : TermStructure) (a sigma t : Q) : Q :=
  let fwd := forwardRate ts_obj t (t + (1 # 1000)) in
  let var := if Qltb e_5 (Qabs a)
             then (sigma ^ 2 / (2 * a ^ 2)) * (1 - np_exp (- a * t)) ^ 2
             else (1 # 2) * sigma ^ 2 * t ^ 2 in
  fwd + var.

(** Lines 126-132: the cashflows after today, principal at maturity. *)
Definition cashflows (bond : BondData) : list (Q * Q) :=
  let coupon_amt := face bond * coupon_rate bond / payments_per_year bond in
  flat_map (fun d => if sd_after_today d
                     then [(sd_yf d, if sd_is_maturity d then coupon_amt + face bond else coupon_amt)]
                     else [])
           (schedule bond).

(** Lines 135-145: call events mapped to steps, a later event on the
    same step replacing the earlier one. *)
Definition call_maps (bond : BondData) (dt : Q) (N : nat) : CallMaps :=
  fold_left
    (fun (m : CallMaps) (c : CallDate) =>
       if cd_after_today c then
         let step := py_round (cd_yf c / dt) in
         let step := Z.to_nat (Z.max 1 (Z.min step (Z.of_nat N))) in
         mkCallMaps (<[step := cd_price c]> (call_step_to_price m))
                    (<[step := cd_label c]> (call_step_to_date m))
       else m)
    (call_schedule bond) (mkCallMaps ∅ ∅).

(** Lines 161-165: the cashflows falling in [(t, t_next]], in schedule
    order. *)
Definition step_amounts (cfs : list (Q * Q)) (t t_next : Q) : list Q :=
  flat_map (fun '(ct, amt) => if (Qltb t ct && Qleb ct t_next)%bool then [amt] else []) cfs.

(** [curr_amt] after the loop of lines 161-165. *)
Definition curr_amount (cfs : list (Q * Q)) (t t_next : Q) : Q :=
  fold_left Qplus (step_amounts cfs t t_next) 0.

(** Lines 158-165 for one path: discount by the short rate [r_i] and add
    the cashflows of the step. *)
Definition roll_back (cfs : list (Q * Q)) (dt t t_next : Q) (r_i v : Q) : Q :=
  fold_left Qplus (step_amounts cfs t t_next) (v * np_exp (- r_i * dt)).

(** Line 173: a row of [basis]. *)
Definition basis_row (x : Q) : list Q := [1; x; x ^ 2].

(** Line 184: [basis @ betas]; the shapes must agree. *)
Definition dot3 (row betas : list Q) : Result Q :=
  match row, betas with
  | [r0; r1; r2], [b0; b1; b2] => ok (r0 * b0 + r1 * b1 + r2 * b2)
  | _, _ => raise ValueError
  end.

Definition matvec (basis : list (list Q)) (betas : list Q) : Result (list Q) :=
  match betas with
  | [_; _; _] => map_result (fun row => dot3 row betas) basis
  | _ => raise ValueError
  end.

(** Lines 175-182: the coefficients of the step.  On the base run they
    are fitted ([except Exception] replaces a failed fit by zeros) and
    stored in the cache; otherwise they are read from it. *)
Definition step_betas (is_base_run : bool) (i : nat) (basis : list (list Q)) (V : list Q)
  : M McCache (list Q) :=
  if is_base_run then
    (let* betas := lift (try_except (lstsq basis V) (ok zeros3)) in
     run modify (set_regression i betas) in
     ret betas)%py
  else
    (let* c := get in
     ret (default zeros3 (regressions c !! i)))%py.

(** Line 185: [exercise = (cont_val - curr_amt) > strike] *)
Definition exercise_flag (strike curr_amt cont : Q) : bool := Qltb strike (cont - curr_amt).

(** [float(np.mean(exercise))] *)
Definition mean_flags (ex : list bool) : Q :=
  inject_Z (Z.of_nat (length (filter (fun b : bool => b = true) ex)))
  / inject_Z (Z.of_nat (length ex)).

(** Lines 167-191: the call decision at [t_next], on the running values
    [V] of all paths; [X_next] is the column [X[:, i + 1]]. *)
Definition call_decision (cm : CallMaps) (is_base_run : bool) (i : nat) (curr_amt : Q)
    (X_next V : list Q) : M McCache (list Q) :=
  match call_step_to_price cm !! (i + 1)%nat with
  | None => ret V
  | Some strike =>
      let basis := map basis_row X_next in
      (let* betas := step_betas is_base_run i basis V in
       let* cont_val := lift (matvec basis betas) in
       let exercise := map (exercise_flag strike curr_amt) cont_val in
       run (if is_base_run then
              match call_step_to_date cm !! (i + 1)%nat with
              | Some key => modify (set_exercise_prob key (mean_flags exercise))
              | None => throw KeyError
              end
            else ret tt) in
       ret (map (fun '(ex, v) => if ex : bool then strike + curr_amt else v)
                (zip exercise V)))%py
  end.

(** Lines 153-191: one pass of the backward loop, for step [i]. *)
Definition backward_step (cfs : list (Q * Q)) (cm : CallMaps) (is_base_run : bool)
    (dt : Q) (t_grid : list Q) (X R : list (list Q)) (i : nat) (V : list Q)
  : M McCache (list Q) :=
  let t := nth i t_grid 0 in
  let t_next := nth (i + 1) t_grid 0 in
  let V1 := map (fun '(row, v) => roll_back cfs dt t t_next (nth i row 0) v) (zip R V) in
  let curr_amt := curr_amount cfs t t_next in
  call_decision cm is_base_run i curr_amt (map (fun row => nth (i + 1) row 0) X) V1.

Fixpoint backward_loop (cfs : list (Q * Q)) (cm : CallMaps) (is_base_run : bool)
    (dt : Q) (t_grid : list Q) (X R : list (list Q)) (steps : list nat) (V : list Q)
  : M McCache (list Q) :=
  match steps with
  | [] => ret V
  | i :: rest =>
      (let* V' := backward_step cfs cm is_base_run dt t_grid X R i V in
       backward_loop cfs cm is_base_run dt t_grid X R rest V')%py
  end.

(** Line 195: the mean and its standard error. *)
Definition mean (V : list Q) : Q := qsum V / inject_Z (Z.of_nat (length V)).

Definition std_error (V : list Q) : Q :=
  let m := mean V in
  np_sqrt (mean (map (fun v => (v - m) ^ 2) V)) / np_sqrt (inject_Z (Z.of_nat (length V))).

(** Lines 70-195, once the cache object exists: the state of the monad is
    the contents of that object. *)
Definition price_with_cache (ts_obj : TermStructure) (bond : BondData) (a sigma : Q)
    (T : Q) (N : nat) : M McCache (Q * Q) :=
  let dt := T / inject_Z (Z.of_nat N) in
  (let* c0 := get in
   let* X := lift (map_result (simulate_path a sigma dt N) (rng c0)) in
   let t_grid := linspace 0 T (N + 1) in
   let alpha := map (alpha_at ts_obj a sigma) t_grid in
   let R := map (fun row => map (fun '(x, al) => x + al) (zip row alpha)) X in
   let cfs := cashflows bond in
   let cm := call_maps bond dt N in
   let V0 := map (fun _ => 0) X in
   let is_base_run := bool_decide (size (regressions c0) = 0%nat) in
   let* V := backward_loop cfs cm is_base_run dt t_grid X R (rev (seq 0 N)) V0 in
   ret (mean V, std_error V))%py.

(** Lines 38-195: [HullWhiteLSMCEngine.price].  The first component is
    the cache object after the call (the one handed in, or the one created
    on a base call; none when the call fails before there is one); the
    tuple the code returns is [(mean, standard error, that object)]. *)
Definition price (ts_obj : TermStructure) (bond : BondData) (params : Params)
    (state_cache : option McCache) : option McCache * Result (Q * Q) :=
  match param params "a" with
  | inl e => (state_cache, inl e)
  | inr a =>
      match param params "sigma" with
      | inl e => (state_cache, inl e)
      | inr sigma =>
          let T := T_maturity bond in
          let N := n_steps T in
          let c0 := match state_cache with
                    | Some c => c
                    | None => fresh_cache N
                    end in
          let '(c, r) := price_with_cache ts_obj bond a sigma T N c0 in
          (Some c, r)
      end
  end.

End Engine.
End HwLsmc.

(* ===================================================================== *)
(** * The orchestrator ([pricer.py])                                      *)
(* ===================================================================== *)

Module Pricer.

(** A state cache is a dict one of the engines created. *)
Inductive StateCache : Type :=
| McState (c : HwLsmc.McCache)
| PdeState (c : CirPde.PdeCache)
| TreeState (c : BkTree.TreeCache).

(** The short-rate models of the QuantLib reference trees. *)
Inductive QLModel : Type :=
| HullWhite (ts : TermStructure) (a sigma : Q)
| ExtendedCoxIngersollRoss (ts : TermStructure) (theta k sigma r0 : Q)
| BlackKarasinski (ts : TermStructure) (a sigma : Q).

(** What [MasterPricer] holds that is not in the sources or belongs to
    QuantLib: the two reference instruments and the tree engine the
    package exports as [KWFManualTreeEngine] ([engines/__init__.py] is not
    among the sources).  The engine is handed a cache and returns the pair
    [(dirty, state_cache)]; like the engines of the sources it is taken
    to leave a cache it is handed as it is. *)
Class Collaborators : Type := {
  (** [float(self.ql_straight.accruedAmount())] *)
  accruedAmount : Q;
  (** [ql_straight] priced by [DiscountingBondEngine(ts)]: [cleanPrice()] *)
  straight_cleanPrice : TermStructure -> Result Q;
  (** building the model and [ql_callable] priced by
      [TreeCallableFixedRateBondEngine(model, grid)]: [cleanPrice()] *)
  callable_cleanPrice : QLModel -> Z -> Result Q;
  (** [KWFManualTreeEngine(cfg).price(ts, bond_data, params, state_cache)] *)
  kwf_price : TermStructure -> BondData -> Params -> option StateCache -> Result (Q * StateCache)
}.

(** The mutable part of a [MasterPricer]: the object the relinkable
    handle [ts_base] points to, and [_keep_alive]. *)
Record PricerState : Type := mkPricerState {
  ts_base : TermStructure;
  keep_alive : list TermStructure
}.

(** [self.ts_base.linkTo(ts)] *)
Definition linkTo (ts : TermStructure) : M PricerState unit :=
  modify (fun s => mkPricerState ts (keep_alive s)).

(** [self.ts_base.currentLink()] *)
Definition currentLink : M PricerState TermStructure :=
  fun s => (s, inr (ts_base s)).

(** [sub in s] on strings. *)
Fixpoint contains (sub s : string) : bool :=
  (String.prefix sub s
   || match s with
      | EmptyString => false
      | String _ rest => contains sub rest
      end)%bool.

(** The method names [calculate] dispatches on: the bond and the three
    engines, and the three reference trees. *)
Definition engine_methods : list string :=
  ["STRAIGHT BOND"; "HW_LSMC"; "CIR_PDE"; "KWF_MANUAL"]%string.

Definition ql_tree_methods : list string :=
  ["HW_QL_TREE"; "CIR_QL_TREE"; "KWF_QL_TREE"]%string.

(** The pricer after [ts_base.linkTo(ts)]. *)
Definition relinked (s : PricerState) (ts : TermStructure) : PricerState :=
  mkPricerState ts (keep_alive s).

(** The tuple [metrics] returns; [m_state] is present when
    [return_state] was asked for. *)
Record Metrics : Type := mkMetrics {
  m_price : Q;
  m_duration : Q;
  m_convexity : Q;
  m_state : option (option StateCache)
}.

Section Orchestrator.
Context {NL : NumLib} {QL : QuantLib} {CO : Collaborators}.
Variable cfg : AppConfig.
Variable bond : BondData.   (* self.bond_spec.to_engine_bond_data() *)

(** Lines 43-56.  The spreaded curve is built on the handle [ts_base]; it
    is used within the same [calculate] call, where the handle points to
    the link of that moment. *)
Definition _make_ts_with_oas (oas_decimal : Q) : M PricerState TermStructure :=
  if Qleb (Qabs oas_decimal) e_12 then currentLink
  else
    (let* base := currentLink in
     let risky_obj := ZeroSpreadedTermStructure base oas_decimal in
     run modify (fun s => mkPricerState (ts_base s) [risky_obj]) in
     ret risky_obj)%py.

(** Lines 73-77.  The engine reads [state_cache['rng']]: a dict of another
    engine raises [KeyError].  It returns three values, which the
    two-name unpacking [dirty, sc = ...] refuses with [ValueError]. *)
Definition hw_lsmc_call (ts_use : TermStructure) (params : Params)
    (state_cache : option StateCache) : Result (Q * option StateCache) :=
  match state_cache with
  | Some (PdeState _) | Some (TreeState _) =>
      rbind (param params "a") (fun _ => rbind (param params "sigma") (fun _ => raise KeyError))
  | Some (McState c) =>
      rbind (snd (HwLsmc.price cfg ts_use bond params (Some c))) (fun _ => raise ValueError)
  | None =>
      rbind (snd (HwLsmc.price cfg ts_use bond params None)) (fun _ => raise ValueError)
  end.

(** Lines 79-83.  The engine reads the cache with [.get('r0_base', r0)]
    only, so any dict will do, and it returns the dict it was handed. *)
Definition cir_pde_call (ts_use : TermStructure) (params : Params)
    (state_cache : option StateCache) : Result (Q * option StateCache) :=
  match state_cache with
  | None =>
      rbind (CirPde.price cfg ts_use bond params None)
            (fun '(dirty, c) => ok (dirty - accruedAmount, Some (PdeState c)))
  | Some (PdeState c) =>
      rbind (CirPde.price cfg ts_use bond params (Some c))
            (fun '(dirty, c') => ok (dirty - accruedAmount, Some (PdeState c')))
  | Some other =>
      rbind (CirPde.price cfg ts_use bond params (Some (CirPde.mkPdeCache None)))
            (fun '(dirty, _) => ok (dirty - accruedAmount, Some other))
  end.

(** Lines 94-109: the body of the [try] block of the QuantLib reference
    trees. *)
Definition ql_tree_body (ts_use : TermStructure) (params : Params) (method : string)
  : Result (Q * option StateCache) :=
  let grid := ql_grid_size cfg in
  if String.eqb method "HW_QL_TREE" then
    rbind (param params "a") (fun a =>
    rbind (param params "sigma") (fun sigma =>
    rbind (callable_cleanPrice (HullWhite ts_use a sigma) grid) (fun p =>
    ok (p, None))))
  else if String.eqb method "CIR_QL_TREE" then
    let r0 := zeroRate ts_use (1 # 1000) in
    rbind (param params "theta") (fun theta =>
    rbind (param params "k") (fun k =>
    rbind (param params "sigma") (fun sigma =>
    rbind (callable_cleanPrice (ExtendedCoxIngersollRoss ts_use theta k sigma r0) grid) (fun p =>
    ok (p, None)))))
  else if String.eqb method "KWF_QL_TREE" then
    rbind (param params "a") (fun a =>
    rbind (param params "sigma") (fun sigma =>
    rbind (callable_cleanPrice (BlackKarasinski ts_use a sigma) grid) (fun p =>
    ok (p, None))))
  else ok (0, None).

(** Lines 92-111: [try: ... except Exception: return 0.0, None]. *)
Definition ql_tree_call (ts_use : TermStructure) (params : Params) (method : string)
  : Result (Q * option StateCache) :=
  try_except (ql_tree_body ts_use params method) (ok (0, None)).

(** Lines 58-113: [MasterPricer.calculate]. *)
Definition calculate (params : Params) (method : string) (oas_decimal : Q)
    (state_cache : option StateCache) : M PricerState (Q * option StateCache) :=
  (let* ts_use := _make_ts_with_oas oas_decimal in
   if String.eqb method "STRAIGHT BOND" then
     let* p := lift (straight_cleanPrice ts_use) in
     ret (p, None)
   else if String.eqb method "HW_LSMC" then
     lift (hw_lsmc_call ts_use params state_cache)
   else if String.eqb method "CIR_PDE" then
     lift (cir_pde_call ts_use params state_cache)
   else if String.eqb method "KWF_MANUAL" then
     let* '(dirty, sc) := lift (kwf_price ts_use bond params state_cache) in
     ret (dirty - accruedAmount, Some sc)
   else if contains "QL_TREE" method then
     lift (ql_tree_call ts_use params method)
   else ret (0, None))%py.

(** Line 139: the bump in decimal,
    [float(getattr(cfg, "risk_bump_bps", cfg.bump_bps)) / 10000.0]. *)
Definition bump_size : Q := default (bump_bps cfg) (risk_bump_bps cfg) / 10000.

(** Lines 145-163: the two repricings on the relinked handle.  [state] is
    the object the base call returned; both calls are handed it. *)
Definition bump_and_reprice (params : Params) (method : string) (oas_decimal : Q)
    (state : option StateCache) (dy : Q) : M PricerState (Q * Q) :=
  (let* base_ptr := currentLink in
   try_finally
     (let ts_up := ZeroSpreadedTermStructure base_ptr dy in
      run linkTo ts_up in
      let* '(Pup, _) := calculate params method oas_decimal state in
      let ts_dn := ZeroSpreadedTermStructure base_ptr (- dy) in
      run linkTo ts_dn in
      let* '(Pdn, _) := calculate params method oas_decimal state in
      ret (Pup, Pdn))
     (linkTo base_ptr))%py.

(** Lines 115-170: [MasterPricer.metrics]. *)
Definition metrics (params : Params) (method : string) (oas_decimal : Q)
    (state_cache : option StateCache) (return_state : bool) : M PricerState Metrics :=
  let with_state := fun st : option StateCache => if return_state then Some st else None in
  (let* '(P0, state) := calculate params method oas_decimal state_cache in
   if Qleb P0 e_8 then ret (mkMetrics 0 0 0 (with_state state))
   else
     let dy := bump_size in
     if Qltb (Qabs dy) e_12 then ret (mkMetrics P0 0 0 (with_state state))
     else
       let* '(Pup, Pdn) := bump_and_reprice params method oas_decimal state dy in
       let dur := (Pdn - Pup) / (2 * P0 * dy) in
       let conv := (Pup + Pdn - 2 * P0) / (P0 * dy ^ 2) in
       ret (mkMetrics P0 dur conv (with_state state)))%py.

End Orchestrator.
End Pricer.

(* ===================================================================== *)
(** * Sensitivity sweeps ([sensitivity.py])                               *)
(* ===================================================================== *)

Module Sensitivity.

(** A scenario [(label, params, method)] and a row of the result: the
    dict [{x_column: x, label: price, ...}]. *)
Definition Scenario : Type := (string * Params * string)%type.
Definition Row : Type := gmap string Q.

(** Lines 21-28: [_scale_sigma].  The dict is copied; the values of a
    parameter dict are floats, so [p["sigma"] is not None] holds whenever
    the key is there. *)
Definition _scale_sigma (params : Params) (multiplier : Q) : Params :=
  match params with
  | None => None
  | Some d =>
      Some (match d !! "sigma"%string with
            | Some sigma => <["sigma"%string := sigma * multiplier]> d
            | None => d
            end)
  end.

(** [for x in xs: ...; rows.append(row)] in the monad: the first
    exception ends the loop. *)
Fixpoint for_each {S A B} (f : A -> M S B) (xs : list A) : M S (list B) :=
  match xs with
  | [] => ret []
  | x :: rest =>
      (let* y := f x in
       let* ys := for_each f rest in
       ret (y :: ys))%py
  end.

Section Sweeps.
Context {NL : NumLib} {QL : QuantLib} {CO : Pricer.Collaborators}.
Variable cfg : AppConfig.
Variable bond : BondData.

(** The inner loop of the three sweeps: one price per scenario, each
    with [state_cache=None], written into the row under the label. *)
Fixpoint fill_row (transform : Params -> Params) (oas_decimal : Q)
    (scenarios : list Scenario) (row : Row) : M Pricer.PricerState Row :=
  match scenarios with
  | [] => ret row
  | (label, params, method) :: rest =>
      (let* '(price, _) := Pricer.calculate cfg bond (transform params) method oas_decimal None in
       fill_row transform oas_decimal rest (<[label := price]> row))%py
  end.

(** Lines 31-52: [price_vs_volatility]. *)
Definition price_vs_volatility (scenarios : list Scenario) (oas_decimal : Q)
    (vol_multipliers : list Q) : M Pricer.PricerState (list Row) :=
  for_each (fun m => fill_row (fun p => _scale_sigma p m) oas_decimal scenarios
                       {["vol_multiplier"%string := m]})
           vol_multipliers.

(** Lines 64-78: the body of the loop of [price_vs_rate_shift] for one
    shift. *)
Definition shifted_row (base_ptr : TermStructure) (scenarios : list Scenario)
    (oas_decimal : Q) (bps : Q) : M Pricer.PricerState Row :=
  let shift := bps / 10000 in
  let ts_shift := ZeroSpreadedTermStructure base_ptr shift in
  (run Pricer.linkTo ts_shift in
   fill_row (fun p => p) oas_decimal scenarios {["rate_shift_bps"%string := bps]})%py.

(** Lines 55-82: [price_vs_rate_shift]. *)
Definition price_vs_rate_shift (scenarios : list Scenario) (oas_decimal : Q)
    (rate_shifts_bps : list Q) : M Pricer.PricerState (list Row) :=
  (let* base_ptr := Pricer.currentLink in
   try_finally
     (for_each (shifted_row base_ptr scenarios oas_decimal) rate_shifts_bps)
     (Pricer.linkTo base_ptr))%py.

(** Lines 85-95: [price_vs_oas]. *)
Definition price_vs_oas (scenarios : list Scenario) (oas_grid_bps : list Q)
  : M Pricer.PricerState (list Row) :=
  for_each (fun bps => fill_row (fun p => p) (bps / 10000) scenarios
                         {["oas_bps"%string := bps]})
           oas_grid_bps.

End Sweeps.
End Sensitivity.

(* ===================================================================== *)
(** * Periods ([utils.py]) and the CIR loss ([calibration.py])            *)
(* ===================================================================== *)

Module Utils.

(** [ql.TimeUnit] *)
Inductive TimeUnit : Type :=
| Days | Weeks | Months | Years | Hours | Minutes | Seconds | Milliseconds | Microseconds.

(** A [ql.Period]: [p.length()] and [p.units()]. *)
Record Period : Type := mkPeriod {
  p_length : Z;
  p_units : TimeUnit
}.

(** Lines 111-128 of [utils.py]: [DateUtils.payments_per_year], on the
    period [p = DateUtils.ensure_period(freq_or_period)]. *)
Definition payments_per_year_of (p : Period) : Q :=
  let n := p_length p in
  match p_units p with
  | Years => if (0 <? n)%Z then 1 / inject_Z n else 1
  | Months => if (0 <? n)%Z then 12 / inject_Z n else 2
  | Weeks => if (0 <? n)%Z then 52 / inject_Z n else 52
  | Days => if (0 <? n)%Z then 365 / inject_Z n else 365
  | _ => 2
  end.

End Utils.

Module Calibration.

Definition e_3 : Q := 1 # 1000.
Definition e_6 : Q := 1 # 1000000.
Definition e9 : Q := 1000000000.

(** Lines 129-134 of [calibration.py]: the squared relative errors of the
    helpers whose market value exceeds [1e-6]; a helper is given by its
    pair [(marketValue(), modelValue())]. *)
Definition squared_errors (helpers : list (Q * Q)) : Q :=
  fold_left (fun err '(mkt, model) =>
               if Qltb e_6 mkt then err + ((model - mkt) / mkt) ^ 2 else err)
            helpers 0.

(** Lines 117-137: the objective [loss] of [calibrate_cir].  [valuation]
    stands for lines 126-134 as far as QuantLib is concerned: building the
    model and the engine and valuing the helpers, which yields the pairs
    or raises. *)
Definition loss (valuation : Q -> Q -> Q -> Result (list (Q * Q))) (theta kappa sigma : Q) : Q :=
  if (Qleb kappa e_3 || Qleb sigma e_3 || Qleb theta e_3)%bool then e9
  else
    let penal := if Qltb (sigma ^ 2) (2 * kappa * theta) then 0 else 1 in
    match valuation theta kappa sigma with
    | inr helpers => squared_errors helpers + penal
    | inl _ => e9
    end.

End Calibration.

(* ===================================================================== *)
(** * Sample collaborators and inputs for closed examples                 *)
(* ===================================================================== *)

(** The theorems below hold for every numerical library and every curve.
    Closed examples need one of each: here the transcendental functions
    are replaced by rational stand-ins, and the regression, the root
    search and the reference tree always raise. *)
Module Fixtures.

Fixpoint total_spread (ts : TermStructure) : Q :=
  match ts with
  | DiscountCurve _ => 0
  | ZeroSpreadedTermStructure under s => total_spread under + s
  end.

#[local] Instance failing_numlib : NumLib := {|
  np_exp := fun x => 1 + x;
  np_sqrt := fun x => x;
  np_log := fun x => x - 1;
  lstsq := fun _ _ => raise LinAlgError;
  normal_matrix := fun _ paths N => repeat (repeat (1 # 10) N) paths;
  brentq := fun _ _ _ => raise RuntimeError;
  splu_solve := fun _ => ok (fun v => v);
  np_interp := fun _ _ fp => nth 0 fp 0
|}.

(** A flat 4% curve plus the spreads stacked on it. *)
#[local] Instance flat_curve : QuantLib := {|
  discount := fun ts t => 1 / (1 + ((4 # 100) + total_spread ts) * t);
  zeroRate := fun ts _ => (4 # 100) + total_spread ts;
  forwardRate := fun ts _ _ => (4 # 100) + total_spread ts
|}.

#[local] Instance sample_collaborators : Pricer.Collaborators := {|
  Pricer.accruedAmount := 1;
  Pricer.straight_cleanPrice := fun ts => ok (100 - 1000 * total_spread ts);
  Pricer.callable_cleanPrice := fun _ _ => raise RuntimeError;
  Pricer.kwf_price := fun _ _ _ _ => ok (90, Pricer.TreeState (BkTree.mkTreeCache 1 1 2 1))
|}.

(** Collaborators whose bond pricing raises on any curve but the market
    curve itself. *)
#[local] Instance fragile_collaborators : Pricer.Collaborators := {|
  Pricer.accruedAmount := 1;
  Pricer.straight_cleanPrice := fun ts =>
    match ts with
    | DiscountCurve _ => ok 100
    | ZeroSpreadedTermStructure _ _ => raise RuntimeError
    end;
  Pricer.callable_cleanPrice := fun _ _ => raise RuntimeError;
  Pricer.kwf_price := fun _ _ _ _ => raise RuntimeError
|}.

Definition sample_cfg : AppConfig := {|
  bump_bps := 1;
  risk_bump_bps := Some 1;
  mc_paths := 2;
  mc_steps_year := 2;
  mc_seed := 12345;
  pde_r_min := 1 # 100000;
  pde_r_max := 8 # 10;
  pde_grid_size := 3;
  pde_steps_year := 1;
  pde_shift_theta_with_curve := Some true;
  bk_steps_year := 52;
  ql_grid_size := 128
|}.


(** One year to maturity, one coupon of 2 with the principal, callable
    at 100 after six months. *)
Definition sample_bond : BondData := {|
  face := 100;
  coupon_rate := 4 # 100;
  payments_per_year := 2;
  T_maturity := 1;
  schedule := [mkSchedDate true true false 1];
  call_schedule := [mkCallDate true (1 # 2) 100 "March 1st, 2026"]
|}.

Definition hw_params : Params := Some (<["a" := 3 # 100]> (<["sigma" := 1 # 100]> ∅)).

Definition pde_params : Params :=
  Some (<["theta" := 1 # 20]> (<["k" := 1 # 2]> (<["sigma" := 1 # 10]> ∅))).

(** A cache after a base call that fitted step 0 ... *)
Definition frozen_cache : HwLsmc.McCache :=
  HwLsmc.mkMcCache [[1 # 10; 1 # 10]] {[0%nat := [200; 0; 0]]} ∅.


Definition sample_state : Pricer.PricerState := Pricer.mkPricerState (DiscountCurve 0) [].

(** The scenarios of the driver that need no calibrated parameters. *)
Definition sample_scenarios : list Sensitivity.Scenario :=
  [("STRAIGHT BOND", None, "STRAIGHT BOND"); ("BK (Manual Tree)", hw_params, "BK_MANUAL")]%string.

(** The sample bond without its call date. *)
Definition straight_bond : BondData := {|
  face := 100;
  coupon_rate := 4 # 100;
  payments_per_year := 2;
  T_maturity := 1;
  schedule := [mkSchedDate true true false 1];
  call_schedule := []
|}.

(** A configuration whose PDE grid has a single node. *)
Definition cfg_one_node : AppConfig := {|
  bump_bps := 1;
  risk_bump_bps := Some 1;
  mc_paths := 2;
  mc_steps_year := 2;
  mc_seed := 12345;
  pde_r_min := 1 # 100000;
  pde_r_max := 8 # 10;
  pde_grid_size := 1;
  pde_steps_year := 1;
  pde_shift_theta_with_curve := Some true;
  bk_steps_year := 52;
  ql_grid_size := 128
|}.

(** Two cap helpers valued by a model that overprices by [sigma]. *)
Definition sample_valuation (theta kappa sigma : Q) : Result (list (Q * Q)) :=
  ok [(1, 1 + sigma); (0, 5)].

End Fixtures.

(** Proof steps that recur: splitting a conjunction into all its parts,
    and following a chain of [rbind] in a hypothesis down to its value. *)
Ltac split_all := repeat match goal with |- _ /\ _ => split end.

Ltac follow_rbind H :=
  repeat match type of H with
         | rbind ?r _ = _ => destruct r; cbn [rbind] in H; [discriminate|]
         | (let '(_, _) := ?x in _) = _ => destruct x
         end.

(* ===================================================================== *)
(** * Facts about numbers and effects                                     *)
(* ===================================================================== *)

Lemma Qltb_lt (x y : Q) : Qltb x y = true <-> x < y.
Proof. unfold Qltb, Qlt. apply Z.ltb_lt. Qed.

Lemma Qltb_ge (x y : Q) : Qltb x y = false <-> y <= x.
Proof. unfold Qltb, Qle. rewrite Z.ltb_ge. reflexivity. Qed.

Lemma Qleb_le (x y : Q) : Qleb x y = true <-> x <= y.
Proof. apply Qle_bool_iff. Qed.

Lemma Qleb_gt (x y : Q) : Qleb x y = false <-> y < x.
Proof.
  unfold Qleb, Qle_bool, Qlt. rewrite Z.leb_gt. reflexivity.
Qed.

(** The comparison does not see which fraction stands for a number. *)
Lemma Qltb_compat (x x' y y' : Q) : x == x' -> y == y' -> Qltb x y = Qltb x' y'.
Proof.
  intros Hx Hy.
  destruct (Qltb x y) eqn:E1, (Qltb x' y') eqn:E2; try reflexivity.
  - apply Qltb_lt in E1. apply Qltb_ge in E2. rewrite Hx, Hy in E1. lra.
  - apply Qltb_ge in E1. apply Qltb_lt in E2. rewrite Hx, Hy in E1. lra.
Qed.

(** Rounding to the nearest integer leaves a residual of at most one
    half, on either side. *)
Lemma py_round_residual (x : Q) :
  - (1 # 2) <= x - inject_Z (py_round x) /\ x - inject_Z (py_round x) <= 1 # 2.
Proof.
  destruct x as [n d]. unfold py_round. cbn [Qnum Qden].
  pose proof (Z.div_mod n (Zpos d) ltac:(lia)) as Hdm.
  pose proof (Z.mod_pos_bound n (Zpos d) ltac:(lia)) as Hr.
  set (f := (n / Zpos d)%Z) in *. set (r := (n mod Zpos d)%Z) in *.
  destruct (Z.compare_spec (2 * r) (Zpos d)) as [He | Hl | Hg];
    [destruct (Z.even f) | | ];
    unfold Qle, Qminus, Qplus, Qopp, inject_Z; cbn [Qnum Qden];
    split; nia.
Qed.

(** Ties go to the even neighbour. *)
Example py_round_ties : py_round (1 # 2) = 0%Z /\ py_round (3 # 2) = 2%Z /\
                        py_round (- (1 # 2)) = 0%Z /\ py_round (- (3 # 2)) = (-2)%Z /\
                        py_round (5 # 2) = 2%Z /\ py_round (7 # 4) = 2%Z.
Proof. repeat split. Qed.

Example py_int_truncates : py_int (7 # 2) = 3%Z /\ py_int (- (7 # 2)) = (-3)%Z.
Proof. split; reflexivity. Qed.

(* ===================================================================== *)
(** * The trinomial tree: branching and calibration                       *)
(* ===================================================================== *)

Section TreeFacts.
Context {NL : NumLib} {QL : QuantLib}.
Import BkTree.

Lemma arange_js_lookup (j_max j : nat) :
  (j < 2 * j_max + 1)%nat ->
  arange_js j_max !! j = Some (Z.of_nat j - Z.of_nat j_max)%Z.
Proof.
  intros Hj. unfold arange_js.
  rewrite list_lookup_fmap, lookup_seq_lt by lia. reflexivity.
Qed.

Lemma build_tree_lookup (a dt dx : Q) (j_max N i : nat) (lvl : Level) :
  build_tree a dt dx j_max N !! i = Some lvl ->
  lvl = branching a dt dx j_max /\ (i < N - 1)%nat.
Proof.
  unfold build_tree. rewrite list_lookup_fmap.
  destruct (seq 0 (N - 1) !! i) eqn:E; cbn; [|discriminate].
  intros [= <-]. split; [reflexivity|].
  apply lookup_seq in E. lia.
Qed.

(** The second-moment-matching formulas on a residual [e] of at most one
    half: [pu >= 1/24], [pd >= 1/24], [pm = 2/3 - e^2 >= 5/12]. *)
Lemma probabilities_of_residual (e : Q) :
  - (1 # 2) <= e -> e <= 1 # 2 ->
  let pu := 1 / 6 + (1 # 2) * (e ^ 2 + e) in
  let pd := 1 / 6 + (1 # 2) * (e ^ 2 - e) in
  let pm := 1 - pu - pd in
  0 <= pu /\ 0 <= pm /\ 0 <= pd /\ pu + pm + pd == 1.
Proof.
  intros Hlo Hhi. cbv zeta.
  assert (He2 : e ^ 2 == e * e) by (simpl; ring).
  assert (H6 : 1 / 6 == 1 # 6) by reflexivity.
  assert (Hp : 0 <= (e + (1 # 2)) * (e + (1 # 2))) by nra.
  assert (Hn : 0 <= (e - (1 # 2)) * (e - (1 # 2))) by nra.
  assert (Hb : e * e <= 1 # 4) by nra.
  rewrite He2, H6.
  repeat split; [nra | nra | nra | ring].
Qed.

(** C7.  At every level [i] of the tree and every node index [j] (of
    displacement [j - j_max]), for [a >= 0], [dt > 0] and a spacing
    [dx > 0] (it is [sigma * sqrt(3 dt)] with [sigma > 0]): the branch
    offset [k] is the rounding of [mu dt / dx], the residual
    [mu dt / dx - k] lies in [[-1/2, 1/2]], the three probabilities are
    non-negative and they sum to one. *)
Theorem branching_probabilities_valid
    (a dt dx : Q) (j_max N i j : nat) (k : list Z) (pu pm pd : list Q) :
  0 <= a -> 0 < dt -> 0 < dx ->
  build_tree a dt dx j_max N !! i = Some (k, pu, pm, pd) ->
  (j < 2 * j_max + 1)%nat ->
  exists (kj : Z) (u m d : Q),
    k !! j = Some kj /\ pu !! j = Some u /\ pm !! j = Some m /\ pd !! j = Some d /\
    (let x := mu_of a dx (Z.of_nat j - Z.of_nat j_max) * dt / dx in
     kj = py_round x /\ - (1 # 2) <= x - inject_Z kj /\ x - inject_Z kj <= 1 # 2) /\
    0 <= u /\ 0 <= m /\ 0 <= d /\ u + m + d == 1.
Proof.
  intros _ _ _ Hlvl Hj.
  apply build_tree_lookup in Hlvl as [Hlvl _].
  unfold branching in Hlvl. injection Hlvl as -> -> -> ->.
  set (jz := (Z.of_nat j - Z.of_nat j_max)%Z).
  exists (branch_k a dt dx jz), (branch_pu a dt dx jz),
         (branch_pm a dt dx jz), (branch_pd a dt dx jz).
  rewrite !list_lookup_fmap, (arange_js_lookup j_max j Hj). cbn.
  pose proof (py_round_residual (mu_of a dx jz * dt / dx)) as [Hlo Hhi].
  pose proof (probabilities_of_residual _ Hlo Hhi) as (Hu & Hm & Hd & Hs).
  repeat split; try reflexivity; try assumption.
Qed.

(** A weekly tree with [a = 3%]: the node two steps below the centre. *)
Lemma branching_probabilities_valid_witness :
  exists (kj : Z) (u m d : Q),
    map (branch_k (3 # 100) (1 # 52) (1 # 50)) (arange_js 2) !! 0%nat = Some kj /\
    map (branch_pu (3 # 100) (1 # 52) (1 # 50)) (arange_js 2) !! 0%nat = Some u /\
    map (branch_pm (3 # 100) (1 # 52) (1 # 50)) (arange_js 2) !! 0%nat = Some m /\
    map (branch_pd (3 # 100) (1 # 52) (1 # 50)) (arange_js 2) !! 0%nat = Some d /\
    (let x := mu_of (3 # 100) (1 # 50) (Z.of_nat 0 - Z.of_nat 2) * (1 # 52) / (1 # 50) in
     kj = py_round x /\ - (1 # 2) <= x - inject_Z kj /\ x - inject_Z kj <= 1 # 2) /\
    0 <= u /\ 0 <= m /\ 0 <= d /\ u + m + d == 1.
Proof.
  apply (branching_probabilities_valid (3 # 100) (1 # 52) (1 # 50) 2 3 0 0).
  - unfold Qle; simpl; lia.
  - reflexivity.
  - reflexivity.
  - reflexivity.
  - lia.
Defined.


Lemma solve_alpha_root (dt dx : Q) (js : list Z) (Qv : list Q) (zc_i : Q)
    (alpha : list Q) (i : nat) (root : Q) :
  brentq (obj dt dx js Qv zc_i) (-12) 12 = inr root ->
  solve_alpha dt dx js Qv zc_i alpha i = root.
Proof. intros H. unfold solve_alpha. rewrite H. reflexivity. Qed.



End TreeFacts.


(* ===================================================================== *)
(** * The PDE engine: operators and the theta shift                       *)
(* ===================================================================== *)

Section PdeFacts.
Context {NL : NumLib} {QL : QuantLib}.
Import CirPde.

Lemma length_removelast_pred {A} (l : list A) :
  length (removelast l) = (length l - 1)%nat.
Proof. rewrite removelast_firstn_len, length_take. lia. Qed.

(** C6, as the code has it.  On a grid of at least two nodes, with
    [A], [B], [C] the coefficient arrays before the correction: the first
    row of the implicit operator [M_L] has [B[0] + 2 A[0]] on the diagonal
    and [C[0] - A[0]] next to it, and [A[0]] is set to zero; every other
    row of [M_L] is that of the uncorrected arrays; the explicit operator
    [M_R] is not corrected; and the three diagonals have [n], [n - 1] and
    [n - 1] entries, so that no row reaches outside the grid. *)
Theorem lower_boundary_correction (k theta sigma dt dr : Q) (r : list Q) :
  (2 <= length r)%nat ->
  let c := coefficients k theta sigma dt dr r in
  let m_l := fst (operators k theta sigma dt dr r) in
  let m_r := snd (operators k theta sigma dt dr r) in
  let A0 := nth 0 (cA c) 0 in
  main_diag m_l !! 0%nat = Some (nth 0 (cB c) 0 + 2 * A0) /\
  sup_diag m_l !! 0%nat = Some (nth 0 (cC c) 0 - A0) /\
  cA (boundary_correction c) !! 0%nat = Some 0 /\
  sub_diag m_l = tail (cA c) /\
  (forall i : nat, (1 <= i)%nat ->
     main_diag m_l !! i = cB c !! i /\ sup_diag m_l !! i = removelast (cC c) !! i) /\
  m_r = M_R c /\
  length (main_diag m_l) = length r /\
  length (sub_diag m_l) = (length r - 1)%nat /\
  length (sup_diag m_l) = (length r - 1)%nat.
Proof.
  intros Hlen c m_l m_r A0.
  destruct r as [|r0 [|r1 rest]]; cbn in Hlen; try lia.
  subst c m_l m_r A0. unfold operators, boundary_correction, M_L, M_R, coefficients.
  cbn -[Qplus Qminus Qmult Qdiv Qopp Qpower removelast].
  split_all; try reflexivity.
  - intros i Hi. destruct i as [|i]; [lia|]. split; reflexivity.
  - rewrite !length_map. reflexivity.
  - rewrite !length_map. lia.
  - rewrite length_removelast_pred. cbn. rewrite !length_map. lia.
Qed.

(** The cache a price call returns: the one it was handed, or
    [{'r0_base': r0}] on a base call. *)
Lemma pde_price_cache (cfg : AppConfig) (ts_obj : TermStructure) (bond : BondData)
    (params : Params) (state_cache : option PdeCache) (p : Q) (c' : PdeCache) :
  price cfg ts_obj bond params state_cache = inr (p, c') ->
  c' = init_cache (zeroRate ts_obj (1 # 1000)) state_cache.
Proof.
  unfold price. intros H. follow_rbind H.
  unfold ok in H. congruence.
Qed.


End PdeFacts.

(** A grid of three nodes on [[1e-5, 0.8]]. *)
Lemma lower_boundary_correction_witness :
  let r := linspace (1 # 100000) (8 # 10) 3 in
  let dr := nth 1 r 0 - nth 0 r 0 in
  let c := CirPde.coefficients (1 # 2) (1 # 20) (1 # 10) (1 # 100) dr r in
  let m_l := fst (CirPde.operators (1 # 2) (1 # 20) (1 # 10) (1 # 100) dr r) in
  main_diag m_l !! 0%nat = Some (nth 0 (CirPde.cB c) 0 + 2 * nth 0 (CirPde.cA c) 0) /\
  sup_diag m_l !! 0%nat = Some (nth 0 (CirPde.cC c) 0 - nth 0 (CirPde.cA c) 0).
Proof.
  intros r dr c m_l.
  assert (Hlen : (2 <= length r)%nat) by (vm_compute; lia).
  pose proof (lower_boundary_correction (1 # 2) (1 # 20) (1 # 10) (1 # 100) dr r Hlen)
    as (H1 & H2 & _).
  split; [exact H1 | exact H2].
Defined.

(** C6 as stated fails: the correction also changes the super-diagonal
    entry of the first row (three grid nodes, [k = 0.5], [theta = 0.05],
    [sigma = 0.1], [dt = 0.01]). *)
Lemma lower_boundary_counterexample :
  let r := linspace (1 # 100000) (8 # 10) 3 in
  let dr := nth 1 r 0 - nth 0 r 0 in
  let c := CirPde.coefficients (1 # 2) (1 # 20) (1 # 10) (1 # 100) dr r in
  let m_l := fst (CirPde.operators (1 # 2) (1 # 20) (1 # 10) (1 # 100) dr r) in
  ~ (nth 0 (sup_diag m_l) 0 == nth 0 (CirPde.cC c) 0).
Proof. vm_compute. discriminate. Qed.


(** The PDE engine prices the sample bond and hands the cache back. *)
Example pde_price_returns_cache :
  exists p : Q,
    CirPde.price (NL := Fixtures.failing_numlib) (QL := Fixtures.flat_curve)
      Fixtures.sample_cfg (DiscountCurve 0) Fixtures.sample_bond Fixtures.pde_params
      (Some (CirPde.mkPdeCache (Some (2 # 100))))
    = inr (p, CirPde.mkPdeCache (Some (2 # 100))).
Proof. vm_compute. eexists. reflexivity. Qed.


(* ===================================================================== *)
(** * The Monte-Carlo engine: exercise rule and frozen regressions        *)
(* ===================================================================== *)

Section McFacts.
Context {NL : NumLib} {QL : QuantLib}.
Import HwLsmc.

(** On a bumped run the coefficients are read, with zeros for a step the
    cache does not hold, and the cache is not written. *)
Lemma step_betas_frozen (i : nat) (basis : list (list Q)) (V : list Q) (c : McCache) :
  step_betas false i basis V c = (c, inr (default zeros3 (regressions c !! i))).
Proof. reflexivity. Qed.









(** The decision on the paths, once the continuation estimates are there. *)
Lemma decision_lookup (strike curr_amt : Q) (cont_val V : list Q) (p : nat) (cont v : Q) :
  cont_val !! p = Some cont -> V !! p = Some v ->
  map (fun '(ex, v) => if ex : bool then strike + curr_amt else v)
      (zip (map (exercise_flag strike curr_amt) cont_val) V) !! p
  = Some (if Qltb strike (cont - curr_amt) then strike + curr_amt else v).
Proof.
  intros Hc Hv.
  rewrite list_lookup_fmap, lookup_zip_with, list_lookup_fmap, Hc, Hv. reflexivity.
Qed.



(** The product [basis @ betas] on three coefficients: one estimate per
    path, no exception. *)
Lemma matvec_basis (xs : list Q) (b0 b1 b2 : Q) :
  matvec (map basis_row xs) [b0; b1; b2]
  = inr (map (fun x => 1 * b0 + x * b1 + x ^ 2 * b2) xs).
Proof.
  unfold matvec. induction xs as [|x xs IH]; [reflexivity|].
  cbn [map map_result]. rewrite IH. reflexivity.
Qed.

(** A bumped run makes its call decision without raising when the
    coefficients it reads are three (or missing). *)
Lemma call_decision_frozen_returns (cm : CallMaps) (i : nat) (curr_amt : Q)
    (X_next V : list Q) (c : McCache) (b0 b1 b2 : Q) :
  default zeros3 (regressions c !! i) = [b0; b1; b2] ->
  exists V', call_decision cm false i curr_amt X_next V c = (c, inr V').
Proof.
  intros Hb. unfold call_decision.
  destruct (call_step_to_price cm !! (i + 1)%nat); [|eexists; reflexivity].
  unfold bind. rewrite step_betas_frozen, Hb. unfold lift.
  rewrite matvec_basis. eexists. reflexivity.
Qed.

(** C5, as the code has it.  On the base run, at a call step, a
    regression that raises does not fail the call: the zero vector takes
    the place of the coefficients and is stored in the cache under the
    step, the exercise frequency is recorded, and the decision is made
    with a continuation estimate of zero on every path. *)
Theorem regression_failure_defaults_to_zero
    (cm : CallMaps) (i : nat) (curr_amt strike : Q) (key : string)
    (X_next V : list Q) (c : McCache) (e : PyExc) :
  call_step_to_price cm !! (i + 1)%nat = Some strike ->
  call_step_to_date cm !! (i + 1)%nat = Some key ->
  lstsq (map basis_row X_next) V = inl e ->
  exists (prob : Q) (V' : list Q),
    call_decision cm true i curr_amt X_next V c
    = (set_exercise_prob key prob (set_regression i zeros3 c), inr V') /\
    forall (p : nat) (x v : Q),
      X_next !! p = Some x -> V !! p = Some v ->
      V' !! p = Some (if Qltb strike (0 - curr_amt) then strike + curr_amt else v).
Proof.
  intros Hs Hd Hfail.
  unfold call_decision. rewrite Hs, Hd.
  unfold step_betas, bind, lift, modify, ret, try_except. rewrite Hfail.
  cbn [ok]. unfold zeros3. rewrite matvec_basis.
  eexists _, _. split; [reflexivity|].
  intros p x v Hx Hv.
  rewrite (decision_lookup strike curr_amt _ V p (1 * 0 + x * 0 + x ^ 2 * 0) v).
  - assert (Hz : 1 * 0 + x * 0 + x ^ 2 * 0 - curr_amt == 0 - curr_amt) by ring.
    rewrite (Qltb_compat strike strike _ _ (Qeq_refl strike) Hz). reflexivity.
  - rewrite list_lookup_fmap, Hx. reflexivity.
  - exact Hv.
Qed.

End McFacts.




(** A base run, then a run on the curve bumped by one basis point with
    the cache of the base run: the cache is the same afterwards. *)
Example base_then_bumped_run :
  exists (c : HwLsmc.McCache) (r : Result (Q * Q)) (p se : Q),
    HwLsmc.price (NL := Fixtures.failing_numlib) (QL := Fixtures.flat_curve)
      Fixtures.sample_cfg (DiscountCurve 0) Fixtures.sample_bond Fixtures.hw_params None
    = (Some c, r)
    /\ HwLsmc.price (NL := Fixtures.failing_numlib) (QL := Fixtures.flat_curve)
         Fixtures.sample_cfg (ZeroSpreadedTermStructure (DiscountCurve 0) (1 # 10000))
         Fixtures.sample_bond Fixtures.hw_params (Some c)
       = (Some c, inr (p, se)).
Proof. vm_compute. eexists _, _, _, _. split; reflexivity. Qed.

(** The regression raises at the call step of a base run. *)
Lemma regression_failure_defaults_to_zero_witness :
  exists (prob : Q) (V' : list Q),
    HwLsmc.call_decision (NL := Fixtures.failing_numlib)
      (HwLsmc.call_maps Fixtures.sample_bond (1 # 2) 2) true 0 0 [1 # 10] [102]
      (HwLsmc.mkMcCache [[1 # 10; 1 # 10]] ∅ ∅)
    = (HwLsmc.set_exercise_prob "March 1st, 2026" prob
         (HwLsmc.set_regression 0 HwLsmc.zeros3 (HwLsmc.mkMcCache [[1 # 10; 1 # 10]] ∅ ∅)),
       inr V') /\
    forall (p : nat) (x v : Q),
      [1 # 10] !! p = Some x -> [102] !! p = Some v ->
      V' !! p = Some (if Qltb 100 (0 - 0) then 100 + 0 else v).
Proof.
  apply (regression_failure_defaults_to_zero (NL := Fixtures.failing_numlib)
           (HwLsmc.call_maps Fixtures.sample_bond (1 # 2) 2) 0 0 100 "March 1st, 2026"
           [1 # 10] [102] (HwLsmc.mkMcCache [[1 # 10; 1 # 10]] ∅ ∅) LinAlgError).
  - reflexivity.
  - reflexivity.
  - reflexivity.
Defined.

(** C5 as stated fails: with a regression routine that always raises, the
    base-run price call on the callable sample bond returns a price, and
    the cache holds the zero vector for the call step. *)
Lemma regression_failure_counterexample :
  (forall basis V, lstsq (NumLib := Fixtures.failing_numlib) basis V = inl LinAlgError)
  /\ exists (p se : Q) (c : HwLsmc.McCache),
       HwLsmc.price (NL := Fixtures.failing_numlib) (QL := Fixtures.flat_curve)
         Fixtures.sample_cfg (DiscountCurve 0) Fixtures.sample_bond Fixtures.hw_params None
       = (Some c, inr (p, se))
       /\ HwLsmc.regressions c !! 0%nat = Some HwLsmc.zeros3.
Proof.
  split; [reflexivity|].
  vm_compute. eexists _, _, _. split; reflexivity.
Qed.

(* ===================================================================== *)
(** * The orchestrator: dispatch, relinking and risk metrics              *)
(* ===================================================================== *)

Section PricerFacts.
Context {NL : NumLib} {QL : QuantLib} {CO : Pricer.Collaborators}.
Variable cfg : AppConfig.
Variable bond : BondData.
Import Pricer.

(** Building the curve with OAS never relinks the base handle and never
    raises. *)
Lemma make_ts_with_oas_link (oas : Q) (s : PricerState) :
  ts_base (fst (_make_ts_with_oas oas s)) = ts_base s
  /\ exists ts_use, snd (_make_ts_with_oas oas s) = inr ts_use.
Proof.
  unfold _make_ts_with_oas.
  destruct (Qleb (Qabs oas) e_12); cbn; eauto.
Qed.

(** [calculate] reads the base handle and leaves its link alone. *)
Lemma calculate_preserves_link (params : Params) (method : string) (oas : Q)
    (sc : option StateCache) (s : PricerState) :
  ts_base (fst (calculate cfg bond params method oas sc s)) = ts_base s.
Proof.
  unfold calculate. unfold bind at 1.
  destruct (make_ts_with_oas_link oas s) as [Hl [ts_use Hu]].
  destruct (_make_ts_with_oas oas s) as [s1 r]. cbn in Hl, Hu. subst r.
  repeat match goal with
         | |- context [if ?b then _ else _] => destruct b
         end; unfold bind, lift, ret;
    repeat match goal with
           | |- context [match ?r with inl _ => _ | inr _ => _ end] => destruct r
           | |- context [let '(_, _) := ?x in _] => destruct x
           end; cbn; exact Hl.
Qed.

(** The [finally] clause: whatever the two repricings do, the handle
    points to [base_ptr] again when the block is left. *)
Lemma bump_and_reprice_restores (params : Params) (method : string) (oas : Q)
    (state : option StateCache) (dy : Q) (s : PricerState) :
  ts_base (fst (bump_and_reprice cfg bond params method oas state dy s)) = ts_base s.
Proof.
  unfold bump_and_reprice, bind at 1, currentLink, try_finally.
  match goal with |- context [match ?b with (_, _) => _ end] => destruct b as [s1 r] end.
  reflexivity.
Qed.

(** C1.  Whatever [metrics] is called with and however it ends (a tuple
    returned, or an exception of the base, up or down repricing), the
    link of the base curve handle after the call is the link before it.
    The bump phase is the only place that relinks the handle, and its
    [finally] clause links it back. *)
Theorem metrics_restores_link (params : Params) (method : string) (oas : Q)
    (sc : option StateCache) (return_state : bool) (s : PricerState) :
  ts_base (fst (metrics cfg bond params method oas sc return_state s)) = ts_base s.
Proof.
  unfold metrics, bind at 1.
  pose proof (calculate_preserves_link params method oas sc s) as H0.
  destruct (calculate cfg bond params method oas sc s) as [s0 [e|[P0 state]]]; cbn in H0.
  - exact H0.
  - destruct (Qleb P0 e_8); [exact H0|].
    destruct (Qltb (Qabs (bump_size cfg)) e_12); [exact H0|].
    unfold bind.
    pose proof (bump_and_reprice_restores params method oas state (bump_size cfg) s0) as Hb.
    destruct (bump_and_reprice cfg bond params method oas state (bump_size cfg) s0)
      as [s1 [e|[Pup Pdn]]]; cbn in Hb |- *; congruence.
Qed.

(** C2.  Let the base [calculate] return the price [P0] (and the cache
    [state]).  If [P0 <= 1e-8], [metrics] returns zeros.  Otherwise, if
    [|dy| < 1e-12], it returns [(P0, 0, 0)].  Otherwise, with [Pup] and
    [Pdn] the prices [calculate] returns while the base handle is linked to
    the base curve spreaded by [+dy] and by [-dy] (same arguments, cache
    [state]), it returns [P0], the duration
    [(Pdn - Pup) / (2 P0 dy)] and the convexity
    [(Pup + Pdn - 2 P0) / (P0 dy^2)], the handle linked back. *)
Theorem metrics_formulas (params : Params) (method : string) (oas : Q)
    (sc : option StateCache) (return_state : bool) (s s0 : PricerState)
    (P0 : Q) (state : option StateCache) :
  calculate cfg bond params method oas sc s = (s0, inr (P0, state)) ->
  let dy := bump_size cfg in
  let with_state := if return_state then Some state else None in
  (P0 <= e_8 ->
   metrics cfg bond params method oas sc return_state s
   = (s0, inr (mkMetrics 0 0 0 with_state)))
  /\ (e_8 < P0 -> Qabs dy < e_12 ->
      metrics cfg bond params method oas sc return_state s
      = (s0, inr (mkMetrics P0 0 0 with_state)))
  /\ (e_8 < P0 -> e_12 <= Qabs dy ->
      forall (s1 s2 : PricerState) (Pup Pdn : Q) (st_up st_dn : option StateCache),
        calculate cfg bond params method oas state
          (relinked s0 (ZeroSpreadedTermStructure (ts_base s0) dy))
        = (s1, inr (Pup, st_up)) ->
        calculate cfg bond params method oas state
          (relinked s1 (ZeroSpreadedTermStructure (ts_base s0) (- dy)))
        = (s2, inr (Pdn, st_dn)) ->
        metrics cfg bond params method oas sc return_state s
        = (relinked s2 (ts_base s0),
           inr (mkMetrics P0
                  ((Pdn - Pup) / (2 * P0 * dy))
                  ((Pup + Pdn - 2 * P0) / (P0 * dy ^ 2))
                  with_state))).
Proof.
  intros H0 dy with_state. subst dy with_state.
  split_all.
  - intros Hle. apply Qleb_le in Hle.
    unfold metrics, bind at 1. rewrite H0, Hle. reflexivity.
  - intros Hgt Hsmall. apply Qleb_gt in Hgt. apply Qltb_lt in Hsmall.
    unfold metrics, bind at 1. rewrite H0, Hgt, Hsmall. reflexivity.
  - intros Hgt Hbig s1 s2 Pup Pdn st_up st_dn Hup Hdn.
    apply Qleb_gt in Hgt. apply Qltb_ge in Hbig.
    unfold metrics, bind at 1. rewrite H0, Hgt, Hbig.
    unfold bind at 1.
    assert (Hb : bump_and_reprice cfg bond params method oas state (bump_size cfg) s0
                 = (relinked s2 (ts_base s0), inr (Pup, Pdn))).
    { unfold bump_and_reprice, bind at 1, currentLink, try_finally.
      unfold bind at 1, linkTo at 1, modify.
      fold (relinked s0 (ZeroSpreadedTermStructure (ts_base s0) (bump_size cfg))).
      unfold bind at 1. rewrite Hup.
      unfold bind at 1, linkTo at 1, modify.
      fold (relinked s1 (ZeroSpreadedTermStructure (ts_base s0) (- bump_size cfg))).
      unfold bind at 1. rewrite Hdn.
      reflexivity. }
    rewrite Hb. reflexivity.
Qed.

(** C10.  A method that is none of the seven names [calculate] knows
    yields [(0.0, None)], no exception; and so does a reference-tree
    method whose [try] block raises (a missing parameter, a failure inside
    QuantLib). *)
Theorem calculate_soft_failures (params : Params) (method : string) (oas : Q)
    (sc : option StateCache) (s : PricerState) :
  (~ In method (engine_methods ++ ql_tree_methods) ->
   snd (calculate cfg bond params method oas sc s) = inr (0, None))
  /\ (forall (ts_use : TermStructure) (e : PyExc),
        In method ql_tree_methods ->
        snd (_make_ts_with_oas oas s) = inr ts_use ->
        ql_tree_body cfg ts_use params method = inl e ->
        snd (calculate cfg bond params method oas sc s) = inr (0, None)).
Proof.
  split.
  - intros Hnot. unfold calculate, bind at 1.
    destruct (make_ts_with_oas_link oas s) as [_ [ts_use Hu]].
    destruct (_make_ts_with_oas oas s) as [s1 r]. cbn in Hu. subst r.
    cbn in Hnot.
    repeat match goal with
           | |- context [String.eqb method ?m] =>
               destruct (String.eqb_spec method m) as [->|?]; [exfalso; tauto|]
           end.
    destruct (contains "QL_TREE" method); [|reflexivity].
    unfold lift, ql_tree_call, ql_tree_body. cbn [snd].
    repeat match goal with
           | |- context [String.eqb method ?m] =>
               destruct (String.eqb_spec method m) as [->|?]; [exfalso; tauto|]
           end.
    reflexivity.
  - intros ts_use e Hin Hu Hfail. unfold calculate, bind at 1.
    destruct (_make_ts_with_oas oas s) as [s1 r]. cbn in Hu. subst r.
    assert (Hc : contains "QL_TREE" method = true).
    { cbn in Hin. destruct Hin as [<-|[<-|[<-|[]]]]; reflexivity. }
    assert (Hn : String.eqb method "STRAIGHT BOND" = false
                 /\ String.eqb method "HW_LSMC" = false
                 /\ String.eqb method "CIR_PDE" = false
                 /\ String.eqb method "KWF_MANUAL" = false).
    { cbn in Hin. destruct Hin as [<-|[<-|[<-|[]]]]; repeat split. }
    destruct Hn as (-> & -> & -> & ->). rewrite Hc.
    unfold lift, ql_tree_call. rewrite Hfail. reflexivity.
Qed.

(** The Monte-Carlo method never yields a price through [calculate]: the
    engine returns three values where two names are unpacked. *)
Lemma calculate_hw_lsmc_raises (params : Params) (oas : Q)
    (sc : option StateCache) (s : PricerState) :
  exists e, snd (calculate cfg bond params "HW_LSMC" oas sc s) = inl e.
Proof.
  unfold calculate, bind at 1.
  destruct (make_ts_with_oas_link oas s) as [_ [ts_use Hu]].
  destruct (_make_ts_with_oas oas s) as [s1 r]. cbn in Hu. subst r.
  cbn [String.eqb Ascii.eqb Bool.eqb]. unfold lift, hw_lsmc_call. cbn [snd].
  destruct sc as [[c|c|c]|];
    repeat match goal with
           | |- context [rbind ?r _] => destruct r; cbn [rbind raise]
           end; eauto.
Qed.

End PricerFacts.

(** The error path of the bump phase: the repricing on the bumped curve
    raises, and the handle points to the market curve again. *)
Example metrics_error_path :
  Pricer.metrics (NL := Fixtures.failing_numlib) (QL := Fixtures.flat_curve)
    (CO := Fixtures.fragile_collaborators)
    Fixtures.sample_cfg Fixtures.sample_bond None "STRAIGHT BOND" 0 None false
    Fixtures.sample_state
  = (Fixtures.sample_state, inl RuntimeError).
Proof. vm_compute. reflexivity. Qed.

(** The straight bond on the sample curve: [P0 = 100], a bump of one
    basis point, [Pup = 99.9] and [Pdn = 100.1]; the duration is 10 and
    the convexity 0. *)
Lemma metrics_formulas_witness :
  exists m : Pricer.Metrics,
    Pricer.metrics (NL := Fixtures.failing_numlib) (QL := Fixtures.flat_curve)
      (CO := Fixtures.sample_collaborators)
      Fixtures.sample_cfg Fixtures.sample_bond None "STRAIGHT BOND" 0 None false
      Fixtures.sample_state
    = (Fixtures.sample_state, inr m)
    /\ Pricer.m_price m == 100 /\ Pricer.m_duration m == 10 /\ Pricer.m_convexity m == 0.
Proof.
  pose proof (metrics_formulas (NL := Fixtures.failing_numlib) (QL := Fixtures.flat_curve)
                (CO := Fixtures.sample_collaborators)
                Fixtures.sample_cfg Fixtures.sample_bond None "STRAIGHT BOND" 0 None false
                Fixtures.sample_state Fixtures.sample_state 100 None eq_refl)
    as (_ & _ & Hbump).
  eexists. split.
  - apply (Hbump ltac:(reflexivity) ltac:(unfold Qle; simpl; lia)
             (Pricer.relinked Fixtures.sample_state
                (ZeroSpreadedTermStructure (DiscountCurve 0)
                   (Pricer.bump_size Fixtures.sample_cfg)))
             (Pricer.relinked Fixtures.sample_state
                (ZeroSpreadedTermStructure (DiscountCurve 0)
                   (- Pricer.bump_size Fixtures.sample_cfg)))
             (100 - 1000 * (0 + Pricer.bump_size Fixtures.sample_cfg))
             (100 - 1000 * (0 + - Pricer.bump_size Fixtures.sample_cfg)) None None);
      reflexivity.
  - cbn [Pricer.m_price Pricer.m_duration Pricer.m_convexity].
    repeat split; reflexivity.
Defined.

(** The method name of the smoke test, [BK_MANUAL], is none of the seven;
    and [HW_QL_TREE] with a reference engine that raises. *)
Lemma calculate_soft_failures_witness :
  snd (Pricer.calculate (NL := Fixtures.failing_numlib) (QL := Fixtures.flat_curve)
         (CO := Fixtures.sample_collaborators)
         Fixtures.sample_cfg Fixtures.sample_bond Fixtures.hw_params "BK_MANUAL" (73 # 10000)
         None Fixtures.sample_state)
  = inr (0, None)
  /\ snd (Pricer.calculate (NL := Fixtures.failing_numlib) (QL := Fixtures.flat_curve)
            (CO := Fixtures.sample_collaborators)
            Fixtures.sample_cfg Fixtures.sample_bond Fixtures.hw_params "HW_QL_TREE" (73 # 10000)
            None Fixtures.sample_state)
     = inr (0, None).
Proof.
  split.
  - apply (proj1 (calculate_soft_failures (NL := Fixtures.failing_numlib)
                    (QL := Fixtures.flat_curve) (CO := Fixtures.sample_collaborators)
                    Fixtures.sample_cfg Fixtures.sample_bond Fixtures.hw_params "BK_MANUAL"
                    (73 # 10000) None Fixtures.sample_state)).
    cbn. intros H. repeat (destruct H as [H|H]; [discriminate|]). exact H.
  - apply (proj2 (calculate_soft_failures (NL := Fixtures.failing_numlib)
                    (QL := Fixtures.flat_curve) (CO := Fixtures.sample_collaborators)
                    Fixtures.sample_cfg Fixtures.sample_bond Fixtures.hw_params "HW_QL_TREE"
                    (73 # 10000) None Fixtures.sample_state)
             (ZeroSpreadedTermStructure (DiscountCurve 0) (73 # 10000)) RuntimeError).
    + cbn. auto.
    + reflexivity.
    + reflexivity.
Defined.

(* ===================================================================== *)
(** * Further facts: the orchestrator                                     *)
(* ===================================================================== *)

Lemma Qmin_le_l (x y : Q) : Qmin x y <= x.
Proof.
  unfold Qmin. destruct (Qltb y x) eqn:E.
  - apply Qltb_lt in E. lra.
  - lra.
Qed.

Lemma Qmin_le_r (x y : Q) : Qmin x y <= y.
Proof.
  unfold Qmin. destruct (Qltb y x) eqn:E.
  - lra.
  - apply Qltb_ge in E. exact E.
Qed.

Lemma py_int_nonneg (x : Q) : 0 <= x -> (0 <= py_int x)%Z.
Proof.
  destruct x as [n d]. unfold Qle, py_int. cbn [Qnum Qden]. intros H.
  apply Z.quot_pos; lia.
Qed.

Section PricerExtras.
Context {NL : NumLib} {QL : QuantLib} {CO : Pricer.Collaborators}.
Variable cfg : AppConfig.
Variable bond : BondData.
Import Pricer.

(** The pricer after [calculate] is the pricer after the curve with OAS
    was built: the dispatch itself changes nothing of it. *)
Lemma calculate_state (params : Params) (method : string) (oas : Q)
    (sc : option StateCache) (s : PricerState) :
  fst (calculate cfg bond params method oas sc s) = fst (_make_ts_with_oas oas s).
Proof.
  unfold calculate. unfold bind at 1.
  destruct (_make_ts_with_oas oas s) as [s1 [e|ts_use]]; [reflexivity|]. cbn [fst].
  repeat match goal with
         | |- context [if ?b then _ else _] => destruct b
         end; unfold bind, lift, ret;
    repeat match goal with
           | |- context [match ?r with inl _ => _ | inr _ => _ end] => destruct r
           | |- context [let '(_, _) := ?x in _] => destruct x
           end; reflexivity.
Qed.

(** X1.  [calculate], however it ends, leaves the base handle linked to
    what it was linked to; [_keep_alive] is untouched when [|oas| <= 1e-12]
    and holds exactly the one spreaded curve of this call otherwise. *)
Theorem calculate_never_relinks (params : Params) (method : string) (oas : Q)
    (sc : option StateCache) (s : PricerState) :
  let s' := fst (calculate cfg bond params method oas sc s) in
  ts_base s' = ts_base s
  /\ (Qabs oas <= e_12 -> keep_alive s' = keep_alive s)
  /\ (e_12 < Qabs oas -> keep_alive s' = [ZeroSpreadedTermStructure (ts_base s) oas]).
Proof.
  cbv zeta. rewrite calculate_state. unfold _make_ts_with_oas.
  destruct (Qleb (Qabs oas) e_12) eqn:E.
  - apply Qleb_le in E. split_all; try reflexivity. intros H. lra.
  - apply Qleb_gt in E. split_all; try reflexivity. intros H. lra.
Qed.

(** An exception of the base pricing is the exception of [metrics]. *)
Lemma metrics_of_failed_base (params : Params) (method : string) (oas : Q)
    (sc : option StateCache) (rs : bool) (s : PricerState) (e : PyExc) :
  snd (calculate cfg bond params method oas sc s) = inl e ->
  metrics cfg bond params method oas sc rs s
  = (fst (calculate cfg bond params method oas sc s), inl e).
Proof.
  intros H. unfold metrics, bind at 1.
  destruct (calculate cfg bond params method oas sc s) as [s0 r]. cbn in H. subst r.
  reflexivity.
Qed.

(** X2.  With the method ["HW_LSMC"], [calculate] raises for every input
    (the engine's own exception, or the [ValueError] of unpacking its three
    return values into two names), and [metrics] raises the same
    exception. *)
Theorem hw_lsmc_never_prices (params : Params) (oas : Q)
    (sc : option StateCache) (rs : bool) (s : PricerState) :
  exists e : PyExc,
    snd (calculate cfg bond params "HW_LSMC" oas sc s) = inl e
    /\ snd (metrics cfg bond params "HW_LSMC" oas sc rs s) = inl e.
Proof.
  destruct (calculate_hw_lsmc_raises cfg bond params oas sc s) as [e He].
  exists e. split; [exact He|].
  rewrite (metrics_of_failed_base _ _ _ _ _ _ _ He). reflexivity.
Qed.

(** X3.  When [calculate] with ["CIR_PDE"] returns, the cache it returns
    is the cache it was handed, whichever engine made it; without one it is
    a new [{'r0_base': r0}] holding the zero rate of the curve with OAS. *)
Theorem cir_pde_cache_round_trip (params : Params) (oas : Q)
    (sc : option StateCache) (s s' : PricerState) (p : Q) (out : option StateCache) :
  calculate cfg bond params "CIR_PDE" oas sc s = (s', inr (p, out)) ->
  match sc with
  | Some given => out = Some given
  | None =>
      exists ts_use,
        snd (_make_ts_with_oas oas s) = inr ts_use
        /\ out = Some (PdeState (CirPde.mkPdeCache (Some (zeroRate ts_use (1 # 1000)))))
  end.
Proof.
  unfold calculate, bind at 1.
  destruct (make_ts_with_oas_link oas s) as [_ [ts_use Hu]].
  destruct (_make_ts_with_oas oas s) as [s1 r]. cbn in Hu. subst r.
  cbn [String.eqb Ascii.eqb Bool.eqb]. unfold lift, cir_pde_call.
  intros H.
  destruct sc as [[c|c|c]|];
    match type of H with
    | (_, rbind ?r _) = _ => destruct r as [e|[dirty c']] eqn:Hp; cbn [rbind] in H;
                             [discriminate|]
    end; unfold ok in H; injection H as _ _ <-.
  - reflexivity.
  - apply pde_price_cache in Hp. cbn in Hp. subst c'. reflexivity.
  - reflexivity.
  - apply pde_price_cache in Hp. cbn in Hp. subst c'.
    exists ts_use. split; reflexivity.
Qed.

(** X4.  For a method name that is none of the seven, [metrics] returns
    price, duration and convexity zero and no cache, without entering the
    bump phase. *)
Theorem metrics_unknown_method_zeros (params : Params) (method : string) (oas : Q)
    (sc : option StateCache) (rs : bool) (s : PricerState) :
  ~ In method (engine_methods ++ ql_tree_methods) ->
  metrics cfg bond params method oas sc rs s
  = (fst (_make_ts_with_oas oas s),
     inr (mkMetrics 0 0 0 (if rs then Some None else None))).
Proof.
  intros Hnot. unfold metrics, bind at 1.
  pose proof (calculate_state params method oas sc s) as Hs.
  assert (Hr : snd (calculate cfg bond params method oas sc s) = inr (0, None)).
  { unfold calculate, bind at 1.
    destruct (make_ts_with_oas_link oas s) as [_ [ts_use Hu]].
    destruct (_make_ts_with_oas oas s) as [s1 r]. cbn in Hu. subst r.
    cbn in Hnot.
    repeat match goal with
           | |- context [String.eqb method ?m] =>
               destruct (String.eqb_spec method m) as [->|?]; [exfalso; tauto|]
           end.
    destruct (contains "QL_TREE" method); [|reflexivity].
    unfold lift, ql_tree_call, ql_tree_body. cbn [snd].
    repeat match goal with
           | |- context [String.eqb method ?m] =>
               destruct (String.eqb_spec method m) as [->|?]; [exfalso; tauto|]
           end.
    reflexivity. }
  destruct (calculate cfg bond params method oas sc s) as [s0 r]. cbn in Hs, Hr. subst s0 r.
  reflexivity.
Qed.

End PricerExtras.

(** The PDE method handed a Monte-Carlo cache: it comes back. *)
Lemma cir_pde_cache_round_trip_witness :
  match snd (Pricer.calculate (NL := Fixtures.failing_numlib) (QL := Fixtures.flat_curve)
               (CO := Fixtures.sample_collaborators)
               Fixtures.sample_cfg Fixtures.sample_bond Fixtures.pde_params "CIR_PDE" 0
               (Some (Pricer.McState Fixtures.frozen_cache)) Fixtures.sample_state) with
  | inr (_, out) => out = Some (Pricer.McState Fixtures.frozen_cache)
  | inl _ => False
  end.
Proof.
  destruct (Pricer.calculate (NL := Fixtures.failing_numlib) (QL := Fixtures.flat_curve)
              (CO := Fixtures.sample_collaborators)
              Fixtures.sample_cfg Fixtures.sample_bond Fixtures.pde_params "CIR_PDE" 0
              (Some (Pricer.McState Fixtures.frozen_cache)) Fixtures.sample_state)
    as [s' [e|[p out]]] eqn:H; cbn [snd].
  - vm_compute in H. discriminate.
  - exact (cir_pde_cache_round_trip (NL := Fixtures.failing_numlib)
             (QL := Fixtures.flat_curve) (CO := Fixtures.sample_collaborators)
             Fixtures.sample_cfg Fixtures.sample_bond Fixtures.pde_params 0
             (Some (Pricer.McState Fixtures.frozen_cache)) Fixtures.sample_state s' p out H).
Defined.

(** The method name of the smoke test. *)
Lemma metrics_unknown_method_zeros_witness :
  Pricer.metrics (NL := Fixtures.failing_numlib) (QL := Fixtures.flat_curve)
    (CO := Fixtures.sample_collaborators)
    Fixtures.sample_cfg Fixtures.sample_bond Fixtures.hw_params "BK_MANUAL" 0 None false
    Fixtures.sample_state
  = (Fixtures.sample_state, inr (Pricer.mkMetrics 0 0 0 None)).
Proof.
  apply (metrics_unknown_method_zeros (NL := Fixtures.failing_numlib)
           (QL := Fixtures.flat_curve) (CO := Fixtures.sample_collaborators)
           Fixtures.sample_cfg Fixtures.sample_bond Fixtures.hw_params "BK_MANUAL" 0 None false
           Fixtures.sample_state).
  cbn. intros H. repeat (destruct H as [H|H]; [discriminate|]). exact H.
Defined.

(* ===================================================================== *)
(** * Further facts: the sensitivity sweeps                               *)
(* ===================================================================== *)

(** X5.  [_scale_sigma] maps [None] to [None]; on a dict it multiplies the
    value under ["sigma"], if there is one, leaves every other key with its
    value, and neither adds nor removes a key. *)
Theorem scale_sigma_frame (params : Params) (multiplier : Q) :
  (params = None -> Sensitivity._scale_sigma params multiplier = None)
  /\ forall d : gmap string Q, params = Some d ->
       exists d' : gmap string Q,
         Sensitivity._scale_sigma params multiplier = Some d'
         /\ d' !! "sigma"%string = (fun sigma => sigma * multiplier) <$> (d !! "sigma"%string)
         /\ (forall key : string, key <> "sigma"%string -> d' !! key = d !! key)
         /\ dom d' = dom d.
Proof.
  split; [intros ->; reflexivity|].
  intros d ->. unfold Sensitivity._scale_sigma.
  destruct (d !! "sigma"%string) as [sigma|] eqn:Hs.
  - eexists. split; [reflexivity|]. split_all.
    + rewrite lookup_insert_eq. reflexivity.
    + intros key Hk. rewrite lookup_insert_ne by congruence. reflexivity.
    + rewrite dom_insert_L. apply elem_of_dom_2 in Hs.
      apply set_eq. intros k. rewrite elem_of_union, elem_of_singleton.
      split; [intros [->|Hk]; assumption | auto].
  - eexists. split; [reflexivity|]. split_all; auto.
Qed.

Section SweepFacts.
Context {NL : NumLib} {QL : QuantLib} {CO : Pricer.Collaborators}.
Variable cfg : AppConfig.
Variable bond : BondData.
Import Pricer Sensitivity.

Lemma fill_row_link (transform : Params -> Params) (oas : Q) (scenarios : list Scenario)
    (row : Row) (s : PricerState) :
  ts_base (fst (fill_row cfg bond transform oas scenarios row s)) = ts_base s.
Proof.
  revert row s. induction scenarios as [|[[label params] method] rest IH]; intros row s.
  - reflexivity.
  - cbn [fill_row]. unfold bind.
    pose proof (calculate_preserves_link cfg bond (transform params) method oas None s) as Hc.
    destruct (calculate cfg bond (transform params) method oas None s)
      as [s1 [e|[price sc]]]; cbn in Hc.
    + exact Hc.
    + rewrite IH. exact Hc.
Qed.

(** A loop that returns has appended one result per element. *)
Lemma for_each_length {S A B} (f : A -> M S B) (xs : list A) (s s' : S) (ys : list B) :
  for_each f xs s = (s', inr ys) -> length ys = length xs.
Proof.
  revert s s' ys. induction xs as [|x rest IH]; intros s s' ys H.
  - cbn in H. injection H as _ <-. reflexivity.
  - cbn [for_each] in H. unfold bind at 1 in H.
    destruct (f x s) as [s1 [e|y]]; [discriminate|].
    unfold bind at 1 in H.
    destruct (for_each f rest s1) as [s2 [e|ys']] eqn:Hr; [discriminate|].
    cbn in H. injection H as _ <-. cbn. f_equal. eapply IH, Hr.
Qed.

Lemma for_each_link {A B} (f : A -> M PricerState B) (xs : list A) (s : PricerState) :
  (forall x s0, ts_base (fst (f x s0)) = ts_base s0) ->
  ts_base (fst (for_each f xs s)) = ts_base s.
Proof.
  intros Hf. revert s. induction xs as [|x rest IH]; intros s; [reflexivity|].
  cbn [for_each]. unfold bind at 1.
  pose proof (Hf x s) as Hx.
  destruct (f x s) as [s1 [e|y]]; cbn in Hx; [exact Hx|].
  unfold bind at 1. pose proof (IH s1) as Hr.
  destruct (for_each f rest s1) as [s2 [e|ys]]; cbn in Hr |- *; congruence.
Qed.


(** X7.  [price_vs_volatility] and [price_vs_oas] never relink the base
    handle, on any exit; when they return there is one row per grid
    point. *)
Theorem vol_and_oas_sweeps_leave_link (scenarios : list Scenario) (oas : Q)
    (grid : list Q) (s : PricerState) :
  ts_base (fst (price_vs_volatility cfg bond scenarios oas grid s)) = ts_base s
  /\ ts_base (fst (price_vs_oas cfg bond scenarios grid s)) = ts_base s
  /\ (forall s' rows, price_vs_volatility cfg bond scenarios oas grid s = (s', inr rows) ->
        length rows = length grid)
  /\ (forall s' rows, price_vs_oas cfg bond scenarios grid s = (s', inr rows) ->
        length rows = length grid).
Proof.
  unfold price_vs_volatility, price_vs_oas. split_all.
  - apply for_each_link. intros x s0. apply fill_row_link.
  - apply for_each_link. intros x s0. apply fill_row_link.
  - intros s' rows H. eapply for_each_length, H.
  - intros s' rows H. eapply for_each_length, H.
Qed.

End SweepFacts.

(** The driver's shifts on two scenarios: seven rows, the straight bond
    cheaper by ten per hundred basis points. *)
Example rate_shift_sweep_runs :
  exists rows : list Sensitivity.Row,
    Sensitivity.price_vs_rate_shift (NL := Fixtures.failing_numlib) (QL := Fixtures.flat_curve)
      (CO := Fixtures.sample_collaborators)
      Fixtures.sample_cfg Fixtures.sample_bond Fixtures.sample_scenarios 0
      [-200; -100; -50; 0; 50; 100; 200] Fixtures.sample_state
    = (Fixtures.sample_state, inr rows)
    /\ length rows = 7%nat
    /\ (forall row, rows !! 5%nat = Some row ->
          exists p, row !! "STRAIGHT BOND"%string = Some p /\ p == 90).
Proof.
  vm_compute. eexists. split; [reflexivity|]. split; [reflexivity|].
  intros row [= <-]. eexists. split; [reflexivity|]. reflexivity.
Qed.

(* ===================================================================== *)
(** * Further facts: the Monte-Carlo engine                               *)
(* ===================================================================== *)

Section McExtras.
Context {NL : NumLib} {QL : QuantLib}.
Import HwLsmc.

Lemma simulate_from_enough (a sigma dt : Q) (z : list Q) (steps i : nat) (x : Q) :
  (i + steps <= length z)%nat ->
  exists xs, simulate_from a sigma dt z i steps x = inr xs
             /\ length xs = S steps /\ xs !! 0%nat = Some x.
Proof.
  revert i x. induction steps as [|n IH]; intros i x Hlen.
  - exists [x]. repeat split.
  - cbn [simulate_from]. unfold index.
    destruct (z !! i) as [zi|] eqn:Hz.
    2: { apply lookup_ge_None in Hz. lia. }
    cbn [rbind].
    match goal with |- context [simulate_from a sigma dt z (S i) n ?x'] =>
      destruct (IH (S i) x' ltac:(lia)) as (xs & Hxs & Hl & _) end.
    rewrite Hxs. cbn [rbind ok]. exists (x :: xs). split; [reflexivity|]. split; [cbn [length]; lia|reflexivity].
Qed.

Lemma simulate_from_short (a sigma dt : Q) (z : list Q) (steps i : nat) (x : Q) :
  (i <= length z < i + steps)%nat ->
  simulate_from a sigma dt z i steps x = inl IndexError.
Proof.
  revert i x. induction steps as [|n IH]; intros i x Hlen; [lia|].
  cbn [simulate_from]. unfold index.
  destruct (z !! i) as [zi|] eqn:Hz; [|reflexivity].
  apply lookup_lt_Some in Hz.
  cbn [rbind]. rewrite IH by lia. reflexivity.
Qed.

(** X8.  A path simulated from a row of at least [N] draws has [N + 1]
    values and starts at zero; from a shorter row (a cached matrix with
    fewer columns than the run has steps) the simulation raises
    [IndexError]. *)
Theorem simulate_path_shape (a sigma dt : Q) (N : nat) (z : list Q) :
  ((N <= length z)%nat ->
   exists xs, simulate_path a sigma dt N z = inr xs
              /\ length xs = (N + 1)%nat /\ xs !! 0%nat = Some 0)
  /\ ((length z < N)%nat -> simulate_path a sigma dt N z = inl IndexError).
Proof.
  unfold simulate_path. split.
  - intros H. destruct (simulate_from_enough a sigma dt z N 0 0 ltac:(lia)) as (xs & ? & ? & ?).
    exists xs. split_all; [assumption | lia | assumption].
  - intros H. apply simulate_from_short. lia.
Qed.

Lemma call_maps_fold_invariant (dt : Q) (N : nat) (calls : list CallDate) (m : CallMaps) :
  (1 <= N)%nat ->
  (forall step : nat,
     (is_Some (call_step_to_price m !! step) <-> is_Some (call_step_to_date m !! step))
     /\ (is_Some (call_step_to_price m !! step) -> (1 <= step <= N)%nat)) ->
  let m' := fold_left
    (fun (m : CallMaps) (c : CallDate) =>
       if cd_after_today c then
         let step := py_round (cd_yf c / dt) in
         let step := Z.to_nat (Z.max 1 (Z.min step (Z.of_nat N))) in
         mkCallMaps (<[step := cd_price c]> (call_step_to_price m))
                    (<[step := cd_label c]> (call_step_to_date m))
       else m) calls m in
  forall step : nat,
    (is_Some (call_step_to_price m' !! step) <-> is_Some (call_step_to_date m' !! step))
    /\ (is_Some (call_step_to_price m' !! step) -> (1 <= step <= N)%nat).
Proof.
  intros HN. revert m. induction calls as [|c rest IH]; intros m Hm; [exact Hm|].
  cbn [fold_left]. apply IH.
  destruct (cd_after_today c); [|exact Hm].
  intros step. cbn [call_step_to_price call_step_to_date].
  set (k := Z.to_nat (Z.max 1 (Z.min (py_round (cd_yf c / dt)) (Z.of_nat N)))).
  assert (Hk : (1 <= k <= N)%nat) by (subst k; lia).
  destruct (decide (k = step)) as [<-|Hne].
  - rewrite !lookup_insert_eq. split; [split; eauto|]. intros _. exact Hk.
  - rewrite !lookup_insert_ne by exact Hne. apply Hm.
Qed.

(** The keys of the call maps, for any bond. *)
Lemma call_maps_in_grid (bond : BondData) (dt : Q) (N : nat) (step : nat) :
  (1 <= N)%nat ->
  let m := call_maps bond dt N in
  (is_Some (call_step_to_price m !! step) <-> is_Some (call_step_to_date m !! step))
  /\ (is_Some (call_step_to_price m !! step) -> (1 <= step <= N)%nat).
Proof.
  intros HN. unfold call_maps.
  apply (call_maps_fold_invariant dt N (call_schedule bond) (mkCallMaps ∅ ∅) HN).
  intros k. cbn. rewrite !lookup_empty. split; [split|]; intros [? H]; discriminate.
Qed.

(** X9.  The step-to-price and step-to-date maps of the call schedule have
    the same keys, and every key lies in [[1, N]]: a call date is clipped
    into the grid, and the diagnostics of a base run always find the date
    of a call step. *)
Theorem call_maps_keys (bond : BondData) (dt : Q) (N : nat) (step : nat) :
  (1 <= N)%nat ->
  let m := call_maps bond dt N in
  (is_Some (call_step_to_price m !! step) <-> is_Some (call_step_to_date m !! step))
  /\ (is_Some (call_step_to_price m !! step) -> (1 <= step <= N)%nat).
Proof.
  intros HN m. subst m.
  destruct (call_maps_in_grid bond dt N step HN) as [Hsame Hrange].
  split; [exact Hsame | exact Hrange].
Qed.

Lemma step_betas_rng (b : bool) (i : nat) (basis : list (list Q)) (V : list Q) (c : McCache) :
  rng (fst (step_betas b i basis V c)) = rng c.
Proof.
  destruct b; unfold step_betas, bind, lift, modify, get, ret, try_except.
  - destruct (lstsq basis V); reflexivity.
  - reflexivity.
Qed.

Lemma call_decision_rng (cm : CallMaps) (b : bool) (i : nat) (curr_amt : Q)
    (X_next V : list Q) (c : McCache) :
  rng (fst (call_decision cm b i curr_amt X_next V c)) = rng c.
Proof.
  unfold call_decision.
  destruct (call_step_to_price cm !! (i + 1)%nat); [|reflexivity].
  unfold bind at 1.
  pose proof (step_betas_rng b i (map basis_row X_next) V c) as Hb.
  destruct (step_betas b i (map basis_row X_next) V c) as [c1 [e|betas]]; cbn in Hb; [exact Hb|].
  unfold bind at 1, lift.
  destruct (matvec _ _) as [e|cont]; [exact Hb|].
  unfold bind, ret.
  destruct b; [|exact Hb].
  destruct (call_step_to_date cm !! (i + 1)%nat); cbn; exact Hb.
Qed.

Lemma backward_loop_rng (cfs : list (Q * Q)) (cm : CallMaps) (b : bool) (dt : Q)
    (t_grid : list Q) (X R : list (list Q)) (steps : list nat) (V : list Q) (c : McCache) :
  rng (fst (backward_loop cfs cm b dt t_grid X R steps V c)) = rng c.
Proof.
  revert V c. induction steps as [|i rest IH]; intros V c; [reflexivity|].
  cbn [backward_loop]. unfold bind at 1. unfold backward_step.
  match goal with |- context [call_decision ?a1 ?a2 ?a3 ?a4 ?a5 ?a6 c] =>
    pose proof (call_decision_rng a1 a2 a3 a4 a5 a6 c) as Hc;
    destruct (call_decision a1 a2 a3 a4 a5 a6 c) as [c1 [e|V1]]
  end; cbn in Hc; [exact Hc|].
  rewrite IH. exact Hc.
Qed.

Lemma price_with_cache_rng (ts_obj : TermStructure) (bond : BondData)
    (a sigma T : Q) (N : nat) (c : McCache) :
  rng (fst (price_with_cache ts_obj bond a sigma T N c)) = rng c.
Proof.
  unfold price_with_cache, bind at 1, get.
  unfold bind at 1, lift.
  destruct (map_result _ _) as [e|X]; [reflexivity|].
  unfold bind at 1.
  match goal with |- context [backward_loop ?cfs ?cm ?b ?dt ?tg ?X ?R ?st ?V c] =>
    pose proof (backward_loop_rng cfs cm b dt tg X R st V c) as Hc;
    destruct (backward_loop cfs cm b dt tg X R st V c) as [c1 [e|V1]]
  end; cbn in Hc |- *; exact Hc.
Qed.

(** X10.  Whatever a price call does (base or bumped run, return or
    exception once the parameters are read), the random matrix of the cache
    afterwards is the one of the cache handed in; on a call without cache
    it is the matrix drawn from the configured seed, paths and steps. *)
Theorem price_keeps_random_numbers (cfg : AppConfig) (ts_obj : TermStructure)
    (bond : BondData) (params : Params) (a sigma : Q) :
  param params "a" = inr a -> param params "sigma" = inr sigma ->
  (forall c : McCache,
     exists c', fst (price cfg ts_obj bond params (Some c)) = Some c' /\ rng c' = rng c)
  /\ exists c', fst (price cfg ts_obj bond params None) = Some c'
       /\ rng c' = normal_matrix (mc_seed cfg) (mc_paths cfg) (n_steps cfg (T_maturity bond)).
Proof.
  intros Ha Hs. unfold price. rewrite Ha, Hs. split.
  - intros c.
    pose proof (price_with_cache_rng ts_obj bond a sigma (T_maturity bond)
                  (n_steps cfg (T_maturity bond)) c) as Hc.
    destruct (price_with_cache _ _ _ _ _ _ c) as [c1 r]. cbn in Hc |- *. eauto.
  - pose proof (price_with_cache_rng ts_obj bond a sigma (T_maturity bond)
                  (n_steps cfg (T_maturity bond))
                  (fresh_cache cfg (n_steps cfg (T_maturity bond)))) as Hc.
    destruct (price_with_cache _ _ _ _ _ _ _) as [c1 r]. cbn in Hc |- *. eauto.
Qed.


Lemma call_decision_regs_mono (cm : CallMaps) (b : bool) (i : nat) (curr_amt : Q)
    (X_next V : list Q) (c : McCache) (k : nat) :
  is_Some (regressions c !! k) ->
  is_Some (regressions (fst (call_decision cm b i curr_amt X_next V c)) !! k).
Proof.
  intros Hk. unfold call_decision.
  destruct (call_step_to_price cm !! (i + 1)%nat); [|exact Hk].
  assert (H1 : is_Some (regressions (fst (step_betas b i (map basis_row X_next) V c)) !! k)).
  { destruct b; unfold step_betas, bind, lift, modify, get, ret, try_except.
    - destruct (lstsq _ V); cbn;
        (destruct (decide (i = k)) as [->|Hne];
         [rewrite lookup_insert_eq; eauto | rewrite lookup_insert_ne by exact Hne; exact Hk]).
    - exact Hk. }
  unfold bind at 1.
  destruct (step_betas b i (map basis_row X_next) V c) as [c1 [e|betas]]; cbn in H1; [exact H1|].
  unfold bind at 1, lift.
  destruct (matvec _ _) as [e|cont]; [exact H1|].
  unfold bind, ret.
  destruct b; [|exact H1].
  destruct (call_step_to_date cm !! (i + 1)%nat); cbn; exact H1.
Qed.

Lemma backward_loop_regs_mono (cfs : list (Q * Q)) (cm : CallMaps) (b : bool) (dt : Q)
    (t_grid : list Q) (X R : list (list Q)) (steps : list nat) (V : list Q) (c : McCache)
    (k : nat) :
  is_Some (regressions c !! k) ->
  is_Some (regressions (fst (backward_loop cfs cm b dt t_grid X R steps V c)) !! k).
Proof.
  revert V c. induction steps as [|i rest IH]; intros V c Hk; [exact Hk|].
  cbn [backward_loop]. unfold bind at 1. unfold backward_step.
  match goal with |- context [call_decision ?a1 ?a2 ?a3 ?a4 ?a5 ?a6 c] =>
    pose proof (call_decision_regs_mono a1 a2 a3 a4 a5 a6 c k Hk) as Hc;
    destruct (call_decision a1 a2 a3 a4 a5 a6 c) as [c1 [e|V1]]
  end; cbn in Hc; [exact Hc|].
  apply IH, Hc.
Qed.

Lemma call_decision_base_stores (cm : CallMaps) (i : nat) (curr_amt strike : Q)
    (X_next V : list Q) (c c1 : McCache) (V1 : list Q) :
  call_step_to_price cm !! (i + 1)%nat = Some strike ->
  call_decision cm true i curr_amt X_next V c = (c1, inr V1) ->
  is_Some (regressions c1 !! i).
Proof.
  intros Hs H. unfold call_decision in H. rewrite Hs in H.
  unfold step_betas, bind, lift, modify, ret, try_except in H.
  destruct (lstsq _ V) as [e|betas]; cbv beta iota zeta delta [ok] in H;
    (destruct (matvec (map basis_row X_next) _); [discriminate|];
     destruct (call_step_to_date cm !! (i + 1)%nat); [|discriminate];
     injection H as <- _; cbn; rewrite lookup_insert_eq; eauto).
Qed.

Lemma backward_loop_base_stores (cfs : list (Q * Q)) (cm : CallMaps) (dt : Q)
    (t_grid : list Q) (X R : list (list Q)) (steps : list nat) (V : list Q)
    (c c' : McCache) (V' : list Q) (i : nat) (strike : Q) :
  backward_loop cfs cm true dt t_grid X R steps V c = (c', inr V') ->
  In i steps ->
  call_step_to_price cm !! (i + 1)%nat = Some strike ->
  is_Some (regressions c' !! i).
Proof.
  revert V c. induction steps as [|j rest IH]; intros V c H Hin Hs; [destruct Hin|].
  cbn [backward_loop] in H. unfold bind at 1 in H.
  destruct (backward_step cfs cm true dt t_grid X R j V c) as [c1 [e|V1]] eqn:Hstep;
    [discriminate|].
  destruct Hin as [->|Hin].
  - unfold backward_step in Hstep.
    pose proof (call_decision_base_stores _ _ _ _ _ _ _ _ _ Hs Hstep) as H1.
    pose proof (backward_loop_regs_mono cfs cm true dt t_grid X R rest V1 c1 i H1) as H2.
    rewrite H in H2. exact H2.
  - eapply IH; eassumption.
Qed.

Lemma n_steps_at_least_two (cfg : AppConfig) (T : Q) : (2 <= n_steps cfg T)%nat.
Proof.
  unfold n_steps. destruct (Z.leb_spec (py_int (T * inject_Z (mc_steps_year cfg))) 1); lia.
Qed.

(** X11.  After a base run that returns, the cache holds coefficients for
    every call step of the bond (under the index [step - 1] of the loop),
    and a later run with that cache reads exactly them: the zero default
    is not met. *)
Theorem base_run_stores_every_call_step (cfg : AppConfig) (ts_obj : TermStructure)
    (bond : BondData) (params : Params) (c' : McCache) (r : Q * Q)
    (step : nat) (strike : Q) :
  price cfg ts_obj bond params None = (Some c', inr r) ->
  let N := n_steps cfg (T_maturity bond) in
  let dt := T_maturity bond / inject_Z (Z.of_nat N) in
  call_step_to_price (call_maps bond dt N) !! step = Some strike ->
  exists betas : list Q,
    regressions c' !! (step - 1)%nat = Some betas
    /\ forall basis V, step_betas false (step - 1) basis V c' = (c', inr betas).
Proof.
  intros H N dt Hs. unfold price in H.
  destruct (param params "a") as [e|a]; [discriminate|].
  destruct (param params "sigma") as [e|sigma]; [discriminate|].
  fold N in H.
  destruct (price_with_cache ts_obj bond a sigma (T_maturity bond) N (fresh_cache cfg N))
    as [c1 r1] eqn:Hp.
  injection H as -> ->.
  pose proof (proj2 (call_maps_in_grid bond dt N step ltac:(pose proof (n_steps_at_least_two cfg (T_maturity bond)); subst N; lia)) ltac:(rewrite Hs; eauto)) as Hrange.
  unfold price_with_cache, bind at 1, get in Hp.
  unfold bind at 1, lift in Hp.
  destruct (map_result _ _) as [e|X]; [discriminate|].
  cbn [fresh_cache regressions] in Hp.
  replace (bool_decide (size (∅ : gmap nat (list Q)) = 0%nat)) with true in Hp
    by (symmetry; apply bool_decide_eq_true; apply map_size_empty).
  unfold bind at 1 in Hp. fold dt in Hp.
  destruct (backward_loop _ _ true _ _ _ _ _ _ _) as [c2 [e|V']] eqn:Hloop; [discriminate|].
  cbn in Hp. injection Hp as -> _.
  assert (Hstored : is_Some (regressions c' !! (step - 1)%nat)).
  { eapply (backward_loop_base_stores _ _ _ _ _ _ _ _ _ _ _ (step - 1)%nat strike Hloop).
    - rewrite <- in_rev. apply in_seq. lia.
    - replace (step - 1 + 1)%nat with step by lia. exact Hs. }
  destruct Hstored as [betas Hb]. exists betas. split; [exact Hb|].
  intros basis V. rewrite step_betas_frozen, Hb. reflexivity.
Qed.


(** X12.  The exercise frequency recorded for a call date lies in [[0, 1]]
    (at least one path). *)
Theorem exercise_frequency_is_a_probability (ex : list bool) :
  ex <> [] -> 0 <= mean_flags ex /\ mean_flags ex <= 1.
Proof.
  intros Hne. unfold mean_flags.
  assert (Hc : (length (filter (fun b : bool => b = true) ex) <= length ex)%nat)
    by apply length_filter.
  assert (Hl : (0 < length ex)%nat) by (destruct ex; [congruence | cbn; lia]).
  set (k := length (filter (fun b : bool => b = true) ex)) in *.
  set (n := length ex) in *.
  unfold Qdiv, Qle, Qmult, Qinv, inject_Z. cbn [Qnum Qden].
  destruct (Z.of_nat n) as [|pn|pn] eqn:En; try lia.
  cbn [Qnum Qden]. split; nia.
Qed.

Lemma fold_plus_shift (amts : list Q) (x : Q) :
  fold_left Qplus amts x == x + fold_left Qplus amts 0.
Proof.
  revert x. induction amts as [|a rest IH]; intros x; cbn [fold_left].
  - ring.
  - rewrite (IH (x + a)), (IH (0 + a)). ring.
Qed.

(** X13.  The running value of a path after the cashflow loop of a step is
    its discounted value plus [curr_amt], the amount the call decision
    uses: both loops add the same cashflows. *)
Theorem running_value_is_discounted_plus_cashflows
    (cfs : list (Q * Q)) (dt t t_next r_i v : Q) :
  roll_back cfs dt t t_next r_i v
  == v * np_exp (- r_i * dt) + curr_amount cfs t t_next.
Proof. unfold roll_back, curr_amount. apply fold_plus_shift. Qed.

Lemma call_maps_no_calls (bond : BondData) (dt : Q) (N : nat) :
  Forall (fun c => cd_after_today c = false) (call_schedule bond) ->
  call_maps bond dt N = mkCallMaps ∅ ∅.
Proof.
  unfold call_maps. generalize (mkCallMaps ∅ ∅).
  induction (call_schedule bond) as [|c rest IH]; intros m H; [reflexivity|].
  inversion H as [|? ? Hc Hrest]; subst. cbn [fold_left]. rewrite Hc. apply IH, Hrest.
Qed.

Lemma backward_loop_no_calls (cfs : list (Q * Q)) (b : bool) (dt : Q)
    (t_grid : list Q) (X R : list (list Q)) (steps : list nat) (V : list Q) (c : McCache) :
  exists V', backward_loop cfs (mkCallMaps ∅ ∅) b dt t_grid X R steps V c = (c, inr V').
Proof.
  revert V. induction steps as [|i rest IH]; intros V; [eexists; reflexivity|].
  cbn [backward_loop]. unfold bind at 1, backward_step, call_decision.
  cbn [call_step_to_price]. rewrite lookup_empty. unfold ret at 1. apply IH.
Qed.

(** X14.  When no call date lies after today, a price call writes nothing
    to the cache, on a base run either: the cache of a base call comes back
    with empty regressions and diagnostics, so the next call on it is a
    base run again. *)
Theorem non_callable_run_leaves_cache_empty (cfg : AppConfig) (ts_obj : TermStructure)
    (bond : BondData) (params : Params) (a sigma : Q) :
  param params "a" = inr a -> param params "sigma" = inr sigma ->
  Forall (fun c => cd_after_today c = false) (call_schedule bond) ->
  forall c : McCache,
    fst (price cfg ts_obj bond params (Some c)) = Some c
    /\ fst (price cfg ts_obj bond params None)
       = Some (fresh_cache cfg (n_steps cfg (T_maturity bond))).
Proof.
  intros Ha Hs Hnc c. unfold price. rewrite Ha, Hs.
  assert (Hframe : forall c0, fst (price_with_cache ts_obj bond a sigma (T_maturity bond)
                                     (n_steps cfg (T_maturity bond)) c0) = c0).
  { intros c0. unfold price_with_cache, bind at 1, get. unfold bind at 1, lift.
    destruct (map_result _ _) as [e|X]; [reflexivity|].
    rewrite (call_maps_no_calls bond _ _ Hnc). unfold bind at 1.
    match goal with |- context [backward_loop ?cfs _ ?b ?dt ?tg ?X ?R ?st ?V c0] =>
      destruct (backward_loop_no_calls cfs b dt tg X R st V c0) as [V' HV]; rewrite HV
    end. reflexivity. }
  split.
  - pose proof (Hframe c) as H. destruct (price_with_cache _ _ _ _ _ _ c) as [c1 r].
    cbn in H. subst. reflexivity.
  - pose proof (Hframe (fresh_cache cfg (n_steps cfg (T_maturity bond)))) as H.
    destruct (price_with_cache _ _ _ _ _ _ _) as [c1 r]. cbn in H. subst. reflexivity.
Qed.
End McExtras.

(** The call of the sample bond on a grid of two steps. *)
Lemma call_maps_keys_witness :
  let m := HwLsmc.call_maps Fixtures.sample_bond (1 # 2) 2 in
  (is_Some (HwLsmc.call_step_to_price m !! 1%nat)
   <-> is_Some (HwLsmc.call_step_to_date m !! 1%nat))
  /\ (is_Some (HwLsmc.call_step_to_price m !! 1%nat) -> (1 <= 1 <= 2)%nat).
Proof. apply (call_maps_keys Fixtures.sample_bond (1 # 2) 2 1). lia. Defined.

(** A bumped and a base run on the sample bond. *)
Lemma price_keeps_random_numbers_witness :
  (forall c : HwLsmc.McCache,
     exists c',
       fst (HwLsmc.price (NL := Fixtures.failing_numlib) (QL := Fixtures.flat_curve)
              Fixtures.sample_cfg (DiscountCurve 0) Fixtures.sample_bond Fixtures.hw_params
              (Some c)) = Some c'
       /\ HwLsmc.rng c' = HwLsmc.rng c)
  /\ exists c',
       fst (HwLsmc.price (NL := Fixtures.failing_numlib) (QL := Fixtures.flat_curve)
              Fixtures.sample_cfg (DiscountCurve 0) Fixtures.sample_bond Fixtures.hw_params
              None) = Some c'
       /\ HwLsmc.rng c'
          = normal_matrix (NumLib := Fixtures.failing_numlib)
              (mc_seed Fixtures.sample_cfg) (mc_paths Fixtures.sample_cfg)
              (HwLsmc.n_steps Fixtures.sample_cfg (T_maturity Fixtures.sample_bond)).
Proof.
  apply (price_keeps_random_numbers (NL := Fixtures.failing_numlib) (QL := Fixtures.flat_curve)
           Fixtures.sample_cfg (DiscountCurve 0) Fixtures.sample_bond Fixtures.hw_params
           (3 # 100) (1 # 100)); reflexivity.
Defined.

(** The base run on the sample bond stores coefficients for its call. *)
Lemma base_run_stores_every_call_step_witness :
  match HwLsmc.price (NL := Fixtures.failing_numlib) (QL := Fixtures.flat_curve)
          Fixtures.sample_cfg (DiscountCurve 0) Fixtures.sample_bond Fixtures.hw_params None with
  | (Some c', inr _) =>
      exists betas : list Q,
        HwLsmc.regressions c' !! (1 - 1)%nat = Some betas
        /\ forall basis V,
             HwLsmc.step_betas (NL := Fixtures.failing_numlib) false (1 - 1) basis V c'
             = (c', inr betas)
  | _ => False
  end.
Proof.
  destruct (HwLsmc.price (NL := Fixtures.failing_numlib) (QL := Fixtures.flat_curve)
              Fixtures.sample_cfg (DiscountCurve 0) Fixtures.sample_bond Fixtures.hw_params None)
    as [[c'|] [e|r]] eqn:H; try (vm_compute in H; discriminate).
  apply (base_run_stores_every_call_step (NL := Fixtures.failing_numlib)
           (QL := Fixtures.flat_curve)
           Fixtures.sample_cfg (DiscountCurve 0) Fixtures.sample_bond Fixtures.hw_params
           c' r 1 100 H).
  reflexivity.
Defined.

(** One path of two exercised. *)
Lemma exercise_frequency_is_a_probability_witness :
  0 <= HwLsmc.mean_flags [true; false] /\ HwLsmc.mean_flags [true; false] <= 1.
Proof. apply (exercise_frequency_is_a_probability [true; false]). discriminate. Defined.

(** The sample bond without its call date, with and without a cache. *)
Lemma non_callable_run_leaves_cache_empty_witness :
  fst (HwLsmc.price (NL := Fixtures.failing_numlib) (QL := Fixtures.flat_curve)
         Fixtures.sample_cfg (DiscountCurve 0) Fixtures.straight_bond Fixtures.hw_params
         (Some (HwLsmc.mkMcCache [[1 # 10; 1 # 10]] ∅ ∅)))
  = Some (HwLsmc.mkMcCache [[1 # 10; 1 # 10]] ∅ ∅)
  /\ fst (HwLsmc.price (NL := Fixtures.failing_numlib) (QL := Fixtures.flat_curve)
            Fixtures.sample_cfg (DiscountCurve 0) Fixtures.straight_bond Fixtures.hw_params None)
     = Some (HwLsmc.fresh_cache (NL := Fixtures.failing_numlib) Fixtures.sample_cfg
               (HwLsmc.n_steps Fixtures.sample_cfg (T_maturity Fixtures.straight_bond))).
Proof.
  apply (non_callable_run_leaves_cache_empty (NL := Fixtures.failing_numlib)
           (QL := Fixtures.flat_curve)
           Fixtures.sample_cfg (DiscountCurve 0) Fixtures.straight_bond Fixtures.hw_params
           (3 # 100) (1 # 100) eq_refl eq_refl (List.Forall_nil _)
           (HwLsmc.mkMcCache [[1 # 10; 1 # 10]] ∅ ∅)).
Defined.

(* ------------------------------------------------------------------ *)
(** * Further facts: the PDE engine *)

Section PdeExtras.
Context {NL : NumLib} {QL : QuantLib}.
Import CirPde.

Lemma obstacles_keep_bound (cfs calls : list (Q * Q)) (dt curr_t prev_t bound : Q) (V : list Q) :
  Forall (fun v => v <= bound) V ->
  Forall (fun v => v <= bound)
    (fold_left
       (fun V '(ct, call_price) =>
          if (Qleb curr_t ct && Qltb ct prev_t)%bool
          then map (fun v => Qmin v (call_price + coupon_at cfs ct dt)) V else V)
       calls V).
Proof.
  revert V. induction calls as [|[ct cp] rest IH]; intros V HV; [exact HV|].
  cbn [fold_left]. apply IH.
  destruct (Qleb curr_t ct && Qltb ct prev_t)%bool; [|exact HV].
  apply Forall_fmap. eapply Forall_impl; [exact HV|].
  intros v Hv. change (Qmin v (cp + coupon_at cfs ct dt) <= bound).
  eapply Qle_trans; [apply Qmin_le_l | exact Hv].
Qed.

(** X15.  The call obstacle of the PDE engine: when a call date [ct] of the
    call events falls in the current time step ([curr_t <= ct < prev_t]),
    every node value after the events of that step is at most the call
    price plus the coupon paid on that date, whatever the values were
    before and whatever other coupons and calls fall in the step. *)
Theorem obstacle_bound (cfs calls : list (Q * Q)) (dt curr_t prev_t : Q) (V : list Q)
    (ct call_price : Q) :
  In (ct, call_price) calls ->
  curr_t <= ct -> ct < prev_t ->
  Forall (fun v => v <= call_price + coupon_at cfs ct dt)
         (apply_events cfs calls dt curr_t prev_t V).
Proof.
  intros Hin Hlo Hhi. unfold apply_events.
  generalize (fold_left
                (fun V '(ct0, amt) =>
                   if (Qleb curr_t ct0 && Qltb ct0 prev_t)%bool
                   then map (fun v => v + amt) V else V) cfs V).
  induction calls as [|[ct' cp'] rest IH]; intros V1; [destruct Hin|].
  cbn [fold_left]. destruct Hin as [Heq|Hin].
  - injection Heq as -> ->.
    apply Qleb_le in Hlo. apply Qltb_lt in Hhi. rewrite Hlo, Hhi. cbn [andb].
    apply obstacles_keep_bound. apply Forall_fmap, Forall_forall.
    intros v _. change (Qmin v (call_price + coupon_at cfs ct dt)
                        <= call_price + coupon_at cfs ct dt).
    apply Qmin_le_r.
  - apply IH, Hin.
Qed.

(** X16.  With a grid of fewer than two nodes ([pde_grid_size < 2]) the PDE
    engine fails with an [IndexError] (it reads [r_grid[1]]) once its three
    parameters are found, instead of returning a price. *)
Theorem pde_grid_needs_two_nodes (cfg : AppConfig) (ts_obj : TermStructure) (bond : BondData)
    (params : Params) (state_cache : option PdeCache) (theta k sigma : Q) :
  param params "theta" = inr theta -> param params "k" = inr k ->
  param params "sigma" = inr sigma ->
  (pde_grid_size cfg < 2)%nat ->
  price cfg ts_obj bond params state_cache = inl IndexError.
Proof.
  intros Ht Hk Hs Hn. unfold price. rewrite Ht, Hk, Hs. cbn [rbind].
  destruct (pde_grid_size cfg) as [|[|n]]; [reflexivity | reflexivity | lia].
Qed.

End PdeExtras.

(** One coupon and one call in the step from [3/2] back to [1]. *)
Lemma obstacle_bound_witness :
  Forall (fun v => v <= 100 + CirPde.coupon_at [(1, 5 # 2)] 1 (1 # 2))
         (CirPde.apply_events [(1, 5 # 2)] [(1, 100)] (1 # 2) 1 (3 # 2) [120; 90]).
Proof.
  apply (obstacle_bound [(1, 5 # 2)] [(1, 100)] (1 # 2) 1 (3 # 2) [120; 90] 1 100).
  - left. reflexivity.
  - lra.
  - lra.
Defined.

(** A grid of one node. *)
Lemma pde_grid_needs_two_nodes_witness :
  CirPde.price (NL := Fixtures.failing_numlib) (QL := Fixtures.flat_curve)
    Fixtures.cfg_one_node (DiscountCurve 0) Fixtures.sample_bond Fixtures.pde_params None
  = inl IndexError.
Proof.
  apply (pde_grid_needs_two_nodes (NL := Fixtures.failing_numlib) (QL := Fixtures.flat_curve)
           Fixtures.cfg_one_node (DiscountCurve 0) Fixtures.sample_bond Fixtures.pde_params None
           (1 # 20) (1 # 2) (1 # 10)); try reflexivity.
  cbn. lia.
Defined.

(* ------------------------------------------------------------------ *)
(** * Further facts: the engines' parameters *)

Section EngineParams.
Context {NL : NumLib} {QL : QuantLib}.

(** X17.  The three manual engines reject incomplete parameters before
    doing any work: with [params = None] each fails with a [TypeError]
    (subscript of [None]); with a dict that lacks ["a"] or ["sigma"] the
    Monte-Carlo and tree engines fail with a [KeyError], and with a dict
    that lacks ["theta"], ["k"] or ["sigma"] the PDE engine does.  The
    Monte-Carlo engine's cache is left as it was. *)
Theorem engines_reject_missing_parameters (cfg : AppConfig) (ts_obj : TermStructure)
    (bond : BondData) :
  (forall (mc : option HwLsmc.McCache) (pc : option CirPde.PdeCache) (tc : option BkTree.TreeCache),
     HwLsmc.price cfg ts_obj bond None mc = (mc, inl TypeError)
     /\ CirPde.price cfg ts_obj bond None pc = inl TypeError
     /\ BkTree.price cfg ts_obj bond None tc = inl TypeError)
  /\ (forall (d : gmap string Q) (mc : option HwLsmc.McCache) (tc : option BkTree.TreeCache),
        d !! "a"%string = None \/ d !! "sigma"%string = None ->
        HwLsmc.price cfg ts_obj bond (Some d) mc = (mc, inl KeyError)
        /\ BkTree.price cfg ts_obj bond (Some d) tc = inl KeyError)
  /\ (forall (d : gmap string Q) (pc : option CirPde.PdeCache),
        d !! "theta"%string = None \/ d !! "k"%string = None \/ d !! "sigma"%string = None ->
        CirPde.price cfg ts_obj bond (Some d) pc = inl KeyError).
Proof.
  split; [|split].
  - intros mc pc tc. split_all; reflexivity.
  - intros d mc tc H. split.
    + unfold HwLsmc.price, param.
      destruct H as [H|H]; rewrite H; [reflexivity|].
      destruct (d !! "a"%string); reflexivity.
    + unfold BkTree.price, param.
      destruct H as [H|H]; rewrite H; [reflexivity|].
      destruct (d !! "a"%string); reflexivity.
  - intros d pc H. unfold CirPde.price, param.
    destruct H as [H|[H|H]]; rewrite H.
    + reflexivity.
    + destruct (d !! "theta"%string); reflexivity.
    + destruct (d !! "theta"%string); [|reflexivity].
      destruct (d !! "k"%string); reflexivity.
Qed.

End EngineParams.

(* ------------------------------------------------------------------ *)
(** * Further facts: the trinomial tree *)

Section TreeExtras.
Context {NL : NumLib} {QL : QuantLib}.
Import BkTree.

(** X18.  Geometry of a tree built without a cache: the half-width
    [j_max] never exceeds 150; it is exactly 150 when the mean reversion
    is at most [1e-12]; it is at least 1 otherwise, and the number of time
    steps is at least 2 for a non-negative maturity, when [bk_steps_year]
    is positive. *)
Theorem tree_width_bounds (cfg : AppConfig) (a sigma T : Q) :
  let geo := geometry cfg a sigma T None in
  (tc_j_max geo <= 150)%nat
  /\ (a <= e_12 -> tc_j_max geo = 150%nat)
  /\ (e_12 < a -> 0 < bk_steps_year cfg -> (1 <= tc_j_max geo)%nat)
  /\ (0 <= T -> 0 < bk_steps_year cfg -> (2 <= tc_N geo)%nat).
Proof.
  cbv zeta. unfold geometry. cbn [tc_j_max tc_N]. split_all.
  - destruct (Qltb e_12 a); lia.
  - intros Ha. apply Qltb_ge in Ha. rewrite Ha. reflexivity.
  - intros Ha Hs. pose proof Ha as Ha'. apply Qltb_lt in Ha'. rewrite Ha'.
    assert (H0 : 0 <= 6 / (a * (1 / bk_steps_year cfg))).
    { assert (Hdt : 0 < 1 / bk_steps_year cfg).
      { unfold Qdiv. rewrite Qmult_1_l. apply Qinv_lt_0_compat, Hs. }
      assert (Ha0 : 0 < a) by (unfold e_12 in Ha; lra).
      assert (Hp : 0 < a * (1 / bk_steps_year cfg)) by (apply Qmult_lt_0_compat; assumption).
      apply Qlt_le_weak. unfold Qdiv at 1.
      apply Qmult_lt_0_compat; [reflexivity | apply Qinv_lt_0_compat, Hp]. }
    apply py_int_nonneg in H0. lia.
  - intros HT Hs.
    assert (H0 : 0 <= T / (1 / bk_steps_year cfg)).
    { assert (Hdt : 0 < 1 / bk_steps_year cfg).
      { unfold Qdiv. rewrite Qmult_1_l. apply Qinv_lt_0_compat, Hs. }
      unfold Qdiv at 1. apply Qmult_le_0_compat; [exact HT|].
      apply Qlt_le_weak, Qinv_lt_0_compat, Hdt. }
    apply py_int_nonneg in H0. lia.
Qed.

(** X19.  The call obstacle of the tree: at a time step [i] that carries a
    call price, every node value produced by the backward step is at most
    the call price plus the coupon of that step (the edge nodes and the
    nodes whose middle branch leaves the tree hold 0), provided that sum is
    not negative. *)
Theorem tree_call_obstacle (dt dx : Q) (j_max : nat) (cfs calls : gmap Z Q) (alpha : list Q)
    (lvl : Level) (i : nat) (V : list Q) (call_price : Q) :
  calls !! Z.of_nat i = Some call_price ->
  0 <= call_price + default 0 (cfs !! Z.of_nat i) ->
  Forall (fun v => v <= call_price + default 0 (cfs !! Z.of_nat i))
         (backward_level dt dx j_max cfs calls alpha lvl i V).
Proof.
  intros Hc Hpos. unfold backward_level. apply Forall_fmap, Forall_forall.
  intros j _. change ((if ((1 <=? j)%nat && (j <? 2 * j_max)%nat)%bool
                       then node_value dt dx j_max cfs calls alpha lvl i V j else 0)
                      <= call_price + default 0 (cfs !! Z.of_nat i)).
  destruct ((1 <=? j)%nat && (j <? 2 * j_max)%nat)%bool; [|exact Hpos].
  unfold node_value. destruct lvl as [[[k pu] pm] pd].
  destruct ((0 <? Z.of_nat j + nth j k 0%Z)%Z && (Z.of_nat j + nth j k 0%Z <? 2 * Z.of_nat j_max)%Z)%bool;
    [|exact Hpos].
  cbv zeta. rewrite Hc. apply Qmin_le_r.
Qed.

Lemma add_at_length (Q_n : list Q) (pos : Z) (v : Q) : length (add_at Q_n pos v) = length Q_n.
Proof.
  unfold add_at. destruct (_ && _)%bool; [apply length_insert | reflexivity].
Qed.

Lemma propagate_length (dt dx : Q) (js : list Z) (lvl : Level) (alpha_i : Q) (Qv : list Q) :
  length (propagate dt dx js lvl alpha_i Qv) = length Qv.
Proof.
  unfold propagate.
  match goal with |- length (fold_left ?f ?idx ?init) = _ =>
    assert (H : forall l acc, length (fold_left f l acc) = length acc)
  end.
  { induction l as [|j l IH]; intros acc; [reflexivity|].
    cbn [fold_left]. rewrite IH. unfold propagate_node.
    destruct lvl as [[[k pu] pm] pd]. rewrite !add_at_length. reflexivity. }
  rewrite H, length_map. reflexivity.
Qed.

Lemma calibration_loop_lengths (dt dx : Q) (js : list Z) (zc : list Q) (tree : list Level)
    (steps : list nat) (alpha Qv : list Q) :
  let r := calibration_loop dt dx js zc tree steps (alpha, Qv) in
  length (fst r) = length alpha /\ length (snd r) = length Qv.
Proof.
  cbv zeta. revert alpha Qv. induction steps as [|i rest IH]; intros alpha Qv; [split; reflexivity|].
  cbn [calibration_loop]. unfold calibration_step.
  destruct (negb _); [split; reflexivity|].
  destruct (IH (<[i := solve_alpha dt dx js Qv (nth i zc 0) alpha i]> alpha)
               (propagate dt dx js (nth i tree ([], [], [], []))
                  (solve_alpha dt dx js Qv (nth i zc 0) alpha i) Qv)) as [H1 H2].
  rewrite H1, H2, length_insert, propagate_length. split; reflexivity.
Qed.

(** X20.  Shapes after calibration: the vector of shifts [alpha] has one
    entry per time step and the vector of state prices has [2*j_max + 1]
    entries, whether or not the root finder succeeds at any step. *)
Theorem calibration_shapes (ts_obj : TermStructure) (a : Q) (geo : TreeCache) :
  length (fst (calibrate ts_obj a geo)) = tc_N geo
  /\ length (snd (calibrate ts_obj a geo)) = (2 * tc_j_max geo + 1)%nat.
Proof.
  unfold calibrate.
  match goal with |- context [calibration_loop ?dt ?dx ?js ?zc ?tree ?steps (?al, ?q)] =>
    destruct (calibration_loop_lengths dt dx js zc tree steps al q) as [H1 H2]
  end.
  rewrite H1, H2, length_insert, !length_map, !length_seq. split; reflexivity.
Qed.

End TreeExtras.

(** A call at step 1 of a tree of half-width 1. *)
Lemma tree_call_obstacle_witness :
  Forall (fun v => v <= 100 + default 0 (({[ 1%Z := 5 # 2 ]} : gmap Z Q) !! Z.of_nat 1))
         (BkTree.backward_level (NL := Fixtures.failing_numlib) (1 # 2) (1 # 10) 1
            {[ 1%Z := 5 # 2 ]} {[ 1%Z := 100 ]} [0; 0]
            ([0%Z; 0%Z; 0%Z], [1 # 6; 1 # 6; 1 # 6], [2 # 3; 2 # 3; 2 # 3], [1 # 6; 1 # 6; 1 # 6])
            1 [0; 120; 0]).
Proof.
  apply (tree_call_obstacle (NL := Fixtures.failing_numlib) (1 # 2) (1 # 10) 1
           {[ 1%Z := 5 # 2 ]} {[ 1%Z := 100 ]} [0; 0]
           ([0%Z; 0%Z; 0%Z], [1 # 6; 1 # 6; 1 # 6], [2 # 3; 2 # 3; 2 # 3], [1 # 6; 1 # 6; 1 # 6])
           1 [0; 120; 0] 100).
  - reflexivity.
  - vm_compute. discriminate.
Defined.

(* ------------------------------------------------------------------ *)
(** * Further facts: periods and the calibration objective *)

(** X21.  [DateUtils.payments_per_year] is positive for every period, also
    for a zero or negative length and for a unit it does not know: the
    coupon amount per period, which divides by it, is always defined. *)
Theorem payments_per_year_positive (p : Utils.Period) : 0 < Utils.payments_per_year_of p.
Proof.
  unfold Utils.payments_per_year_of.
  assert (Hdiv : forall (c : Q) (n : Z), 0 < c -> (0 < n)%Z -> 0 < c / inject_Z n).
  { intros c n Hc Hn. unfold Qdiv. apply Qmult_lt_0_compat; [exact Hc|].
    apply Qinv_lt_0_compat. unfold Qlt, inject_Z. cbn. lia. }
  destruct (Utils.p_units p) eqn:?; try reflexivity;
    destruct (Z.ltb_spec 0 (Utils.p_length p)); try reflexivity; apply Hdiv; try lia; reflexivity.
Qed.

Lemma squared_errors_nonneg_from (helpers : list (Q * Q)) (acc : Q) :
  0 <= acc ->
  0 <= fold_left (fun err '(mkt, model) =>
                    if Qltb Calibration.e_6 mkt then err + ((model - mkt) / mkt) ^ 2 else err)
                 helpers acc.
Proof.
  revert acc. induction helpers as [|[mkt model] rest IH]; intros acc Hacc; [exact Hacc|].
  cbn [fold_left]. apply IH. destruct (Qltb Calibration.e_6 mkt); [|exact Hacc].
  assert (H2 : ((model - mkt) / mkt) ^ 2 == ((model - mkt) / mkt) * ((model - mkt) / mkt))
    by (simpl; ring).
  rewrite H2. nra.
Qed.

(** X22.  The objective minimised by [calibrate_cir] is never negative; it
    is the penalty [1e9] when a parameter is at most [1e-3] and when the
    cap valuation raises; and it is at least 1 when the Feller condition
    [2*kappa*theta > sigma^2] fails and the valuation succeeds. *)
Theorem cir_loss_bounds (valuation : Q -> Q -> Q -> Result (list (Q * Q)))
    (theta kappa sigma : Q) :
  0 <= Calibration.loss valuation theta kappa sigma
  /\ (kappa <= Calibration.e_3 \/ sigma <= Calibration.e_3 \/ theta <= Calibration.e_3 ->
      Calibration.loss valuation theta kappa sigma = Calibration.e9)
  /\ (forall e, Calibration.e_3 < kappa -> Calibration.e_3 < sigma -> Calibration.e_3 < theta ->
        valuation theta kappa sigma = inl e ->
        Calibration.loss valuation theta kappa sigma = Calibration.e9)
  /\ (forall helpers, Calibration.e_3 < kappa -> Calibration.e_3 < sigma ->
        Calibration.e_3 < theta ->
        valuation theta kappa sigma = inr helpers ->
        2 * kappa * theta <= sigma ^ 2 ->
        1 <= Calibration.loss valuation theta kappa sigma).
Proof.
  unfold Calibration.loss. split_all.
  - destruct (_ || _ || _)%bool; [unfold Calibration.e9, Qle; cbn; lia|].
    destruct (valuation theta kappa sigma) as [e|helpers];
      [unfold Calibration.e9, Qle; cbn; lia|].
    pose proof (squared_errors_nonneg_from helpers 0 ltac:(lra)) as H.
    unfold Calibration.squared_errors. destruct (Qltb _ _); lra.
  - intros H.
    assert (Hb : (Qleb kappa Calibration.e_3 || Qleb sigma Calibration.e_3
                  || Qleb theta Calibration.e_3)%bool = true).
    { destruct H as [H|[H|H]]; apply Qleb_le in H; rewrite H;
        rewrite ?orb_true_r; reflexivity. }
    rewrite Hb. reflexivity.
  - intros e Hk Hs Ht Hv.
    apply Qleb_gt in Hk, Hs, Ht. rewrite Hk, Hs, Ht, Hv. reflexivity.
  - intros helpers Hk Hs Ht Hv Hf.
    apply Qleb_gt in Hk, Hs, Ht. rewrite Hk, Hs, Ht, Hv. cbn [orb].
    apply Qltb_ge in Hf. rewrite Hf.
    pose proof (squared_errors_nonneg_from helpers 0 ltac:(lra)) as H.
    unfold Calibration.squared_errors. lra.
Qed.
